(** * Theme management of the page (src/js/theme.js)

    A shallow embedding of the early-applied theme script and of the
    [ThemeManager] class: the browser state the code reads and writes
    (localStorage, the color-scheme media query, the attributes of the
    root element, the toggle controls, the console and the toast
    function) is one record, and every function of the source is a
    computation over it that either returns normally or throws. *)

From stdpp Require Import base option strings list gmap.

Local Open Scope string_scope.
Local Open Scope list_scope.

(** ** JavaScript values and exceptions *)

(** The values a caller can hand to a method.  Numbers carry an integer
    payload only; the code never inspects it. *)
Inductive jsval : Type :=
  | JUndefined
  | JNull
  | JBool (b : bool)
  | JNum (n : Z)
  | JStr (s : string).

(** [a === b] on the values above. *)
Definition strict_eq (a b : jsval) : bool :=
  match a, b with
  | JUndefined, JUndefined => true
  | JNull, JNull => true
  | JBool x, JBool y => Bool.eqb x y
  | JNum x, JNum y => Z.eqb x y
  | JStr x, JStr y => String.eqb x y
  | _, _ => false
  end.

(** What [localStorage.getItem] can return: [null] or a string.  [null]
    and the empty string are the falsy ones. *)
Definition truthy (v : option string) : bool :=
  match v with
  | Some EmptyString => false
  | Some _ => true
  | None => false
  end.

Inductive exn : Type :=
  | DOMException (name : string).

(** ** The browser state *)

(** An element the code can select by id, with the properties it
    assigns.  The three selectors pick elements of three different ids,
    so every element receives the writes of one loop only. *)
Record Element : Type := mkElement {
  el_id : string;
  innerHTML : string;
  textContent : string;
  title : string;
  el_attrs : gmap string string
}.

Record World : Type := mkWorld {
  localStorage : gmap string string;
  getItem_throws : bool;       (* localStorage.getItem raises *)
  setItem_throws : bool;       (* localStorage.setItem raises *)
  matchMedia : option bool;    (* None: window.matchMedia is missing;
                                  Some b: .matches of the light query *)
  documentElement : gmap string string;  (* attributes of the root *)
  elements : list Element;
  showToast : bool;            (* typeof showToast === 'function' *)
  toasts : list (string * string);
  console : list (string * exn);
  watching : bool;             (* handleChange is registered *)
  click_bound : bool;          (* the delegated click handler is registered *)
  currentTheme : string        (* this.currentTheme *)
}.

Definition set_localStorage (f : gmap string string → gmap string string)
    (w : World) : World :=
  mkWorld (f (localStorage w)) (getItem_throws w) (setItem_throws w)
    (matchMedia w) (documentElement w) (elements w) (showToast w) (toasts w)
    (console w) (watching w) (click_bound w) (currentTheme w).

Definition set_documentElement (f : gmap string string → gmap string string)
    (w : World) : World :=
  mkWorld (localStorage w) (getItem_throws w) (setItem_throws w)
    (matchMedia w) (f (documentElement w)) (elements w) (showToast w)
    (toasts w) (console w) (watching w) (click_bound w) (currentTheme w).

Definition set_elements (f : list Element → list Element) (w : World) : World :=
  mkWorld (localStorage w) (getItem_throws w) (setItem_throws w)
    (matchMedia w) (documentElement w) (f (elements w)) (showToast w)
    (toasts w) (console w) (watching w) (click_bound w) (currentTheme w).

Definition set_toasts (f : list (string * string) → list (string * string))
    (w : World) : World :=
  mkWorld (localStorage w) (getItem_throws w) (setItem_throws w)
    (matchMedia w) (documentElement w) (elements w) (showToast w)
    (f (toasts w)) (console w) (watching w) (click_bound w) (currentTheme w).

Definition set_console (f : list (string * exn) → list (string * exn))
    (w : World) : World :=
  mkWorld (localStorage w) (getItem_throws w) (setItem_throws w)
    (matchMedia w) (documentElement w) (elements w) (showToast w) (toasts w)
    (f (console w)) (watching w) (click_bound w) (currentTheme w).

Definition set_watching (b : bool) (w : World) : World :=
  mkWorld (localStorage w) (getItem_throws w) (setItem_throws w)
    (matchMedia w) (documentElement w) (elements w) (showToast w) (toasts w)
    (console w) b (click_bound w) (currentTheme w).

Definition set_click_bound (b : bool) (w : World) : World :=
  mkWorld (localStorage w) (getItem_throws w) (setItem_throws w)
    (matchMedia w) (documentElement w) (elements w) (showToast w) (toasts w)
    (console w) (watching w) b (currentTheme w).

Definition set_currentTheme (t : string) (w : World) : World :=
  mkWorld (localStorage w) (getItem_throws w) (setItem_throws w)
    (matchMedia w) (documentElement w) (elements w) (showToast w) (toasts w)
    (console w) (watching w) (click_bound w) t.

Definition set_setItem_throws (b : bool) (w : World) : World :=
  mkWorld (localStorage w) (getItem_throws w) b
    (matchMedia w) (documentElement w) (elements w) (showToast w) (toasts w)
    (console w) (watching w) (click_bound w) (currentTheme w).

Definition set_innerHTML (s : string) (el : Element) : Element :=
  mkElement (el_id el) s (textContent el) (title el) (el_attrs el).

Definition set_textContent (s : string) (el : Element) : Element :=
  mkElement (el_id el) (innerHTML el) s (title el) (el_attrs el).

Definition set_title (s : string) (el : Element) : Element :=
  mkElement (el_id el) (innerHTML el) (textContent el) s (el_attrs el).

Definition el_setAttribute (name value : string) (el : Element) : Element :=
  mkElement (el_id el) (innerHTML el) (textContent el) (title el)
    (<[name:=value]> (el_attrs el)).

(** ** Computations: state and exceptions *)

Inductive outcome (A : Type) : Type :=
  | Normal (a : A) (w : World)
  | Thrown (e : exn) (w : World).
Arguments Normal {A} a w.
Arguments Thrown {A} e w.

Definition JS (A : Type) : Type := World → outcome A.

Definition ret {A} (a : A) : JS A := λ w, Normal a w.

Definition bind {A B} (m : JS A) (k : A → JS B) : JS B := λ w,
  match m w with
  | Normal a w' => k a w'
  | Thrown e w' => Thrown e w'
  end.

Declare Scope js_scope.
Delimit Scope js_scope with js.
Bind Scope js_scope with JS.
Notation "x ← y ; z" := (bind y (λ x, z)) : js_scope.
Notation "y ;; z" := (bind y (λ _, z)) : js_scope.
Local Open Scope js_scope.

(** [try { body } catch (e) { handler e }] *)
Definition try_catch {A} (body : JS A) (handler : exn → JS A) : JS A := λ w,
  match body w with
  | Normal a w' => Normal a w'
  | Thrown e w' => handler e w'
  end.

Definition gets {A} (f : World → A) : JS A := λ w, Normal (f w) w.
Definition modify (f : World → World) : JS () := λ w, Normal () (f w).

(** ** The platform calls the code makes *)

Definition localStorage_getItem (key : string) : JS (option string) := λ w,
  if getItem_throws w then Thrown (DOMException "SecurityError") w
  else Normal (localStorage w !! key) w.

Definition localStorage_setItem (key value : string) : JS () := λ w,
  if setItem_throws w then Thrown (DOMException "QuotaExceededError") w
  else Normal () (set_localStorage <[key:=value]> w).

Definition console_warn (msg : string) (e : exn) : JS () :=
  modify (set_console (λ c, c ++ [(msg, e)])).

Definition root_setAttribute (name value : string) : JS () :=
  modify (set_documentElement <[name:=value]>).

Definition root_removeAttribute (name : string) : JS () :=
  modify (set_documentElement (delete name)).

(** [window.matchMedia && window.matchMedia('(prefers-color-scheme: light)').matches] *)
Definition prefers_light : JS bool :=
  gets (λ w, match matchMedia w with Some b => b | None => false end).

(** [document.querySelectorAll('#' + id).forEach(f)], [f] updating the
    element in place. *)
Definition forEach_id (id : string) (f : Element → Element) : JS () :=
  modify (set_elements (map (λ el, if String.eqb (el_id el) id then f el else el))).

Definition call_showToast (msg kind : string) : JS () :=
  modify (set_toasts (λ l, l ++ [(msg, kind)])).

(** [a || b] where [a] yields [null] or a string: [b] runs only when
    the value of [a] is falsy. *)
Definition or_else (a : JS (option string)) (b : JS string) : JS string :=
  v ← a;
  match v with
  | Some s => if truthy (Some s) then ret s else b
  | None => b
  end.

Definition STORAGE_KEY : string := "theme-preference".
Definition THEME_ATTRIBUTE : string := "data-theme".

(** ** The script that runs before the page renders (lines 7-31) *)

Module IIFE.

Definition getStoredTheme : JS (option string) :=
  try_catch (localStorage_getItem STORAGE_KEY) (λ _, ret None).

Definition getSystemTheme : JS string :=
  light ← prefers_light;
  if light then ret "light" else ret "dark".

(** [const theme = getStoredTheme() || getSystemTheme()] *)
Definition theme : JS string := or_else getStoredTheme getSystemTheme.

Definition main : JS () :=
  t ← theme;
  if String.eqb t "light" then root_setAttribute THEME_ATTRIBUTE "light"
  else ret ().

End IIFE.

(** ** class ThemeManager (lines 33-224) *)

(** The button texts of the source, as the bytes of their UTF-8 form. *)
Definition NIGHT : string := "夜间".
Definition DAY : string := "日间".

Definition dq : string := String (Ascii.ascii_of_nat 34) EmptyString.
Definition nl : string := String (Ascii.ascii_of_nat 10) EmptyString.
Definition quoted (s : string) : string := dq +:+ s +:+ dq.

Fixpoint spaces (n : nat) : string :=
  match n with
  | O => EmptyString
  | S k => String (Ascii.ascii_of_nat 32) (spaces k)
  end.

(** The template literal assigned to [icon.innerHTML], with the path
    data [d] of the icon. *)
Definition path_markup (d : string) : string :=
  nl +:+ spaces 24 +:+ "<path stroke-linecap=" +:+ quoted "round"
     +:+ " stroke-linejoin=" +:+ quoted "round"
     +:+ " stroke-width=" +:+ quoted "2"
  +:+ nl +:+ spaces 28 +:+ "d=" +:+ quoted d +:+ "></path>"
  +:+ nl +:+ spaces 20.

Definition MOON_ICON : string :=
  path_markup "M20.354 15.354A9 9 0 018.646 3.646 9.003 9.003 0 0012 21a9.003 9.003 0 008.354-5.646z".

Definition SUN_ICON : string :=
  path_markup "M12 3v1m0 16v1m9-9h-1M4 12H3m15.364 6.364l-.707-.707M6.343 6.343l-.707-.707m12.728 0l-.707.707M6.343 17.657l-.707.707M16 12a4 4 0 11-8 0 4 4 0 018 0z".

Definition getStoredTheme : JS (option string) :=
  try_catch (localStorage_getItem STORAGE_KEY)
    (λ e, console_warn "无法读取主题偏好设置:" e ;; ret None).

Definition getSystemTheme : JS string :=
  light ← prefers_light;
  if light then ret "light" else ret "dark".

Definition saveTheme (theme : string) : JS () :=
  try_catch (localStorage_setItem STORAGE_KEY theme)
    (λ e, console_warn "无法保存主题偏好设置:" e).

Definition applyTheme (theme : string) : JS () :=
  (if String.eqb theme "light" then root_setAttribute THEME_ATTRIBUTE "light"
   else root_removeAttribute THEME_ATTRIBUTE) ;;
  modify (set_currentTheme theme) ;;
  saveTheme theme.

Definition updateThemeButton : JS () :=
  isLight ← gets (λ w, String.eqb (currentTheme w) "light");
  forEach_id "themeIcon"
    (set_innerHTML (if isLight then MOON_ICON else SUN_ICON)) ;;
  forEach_id "themeText"
    (set_textContent (if isLight then NIGHT else DAY)) ;;
  forEach_id "themeToggleButton"
    (λ button,
       el_setAttribute "aria-label"
         ("切换到" +:+ (if isLight then NIGHT else DAY) +:+ "模式")
         (set_title ("切换到" +:+ (if isLight then NIGHT else DAY) +:+ "模式")
            button)).

Definition toggleTheme : JS () :=
  cur ← gets currentTheme;
  let newTheme := if String.eqb cur "light" then "dark" else "light" in
  applyTheme newTheme ;;
  updateThemeButton ;;
  has_toast ← gets showToast;
  if has_toast then
    call_showToast
      ("已切换到" +:+ (if String.eqb newTheme "light" then DAY else NIGHT)
         +:+ "模式")
      "success"
  else ret ().

(** The listener that [watchSystemTheme] registers; [e_matches] is
    [e.matches] of the change event. *)
Definition handleChange (e_matches : bool) : JS () :=
  stored ← getStoredTheme;
  if negb (truthy stored) then
    let systemTheme := if e_matches then "light" else "dark" in
    applyTheme systemTheme ;;
    updateThemeButton
  else ret ().

Definition watchSystemTheme : JS () :=
  mm ← gets matchMedia;
  match mm with
  | Some _ => modify (set_watching true)
  | None => ret ()
  end.

Definition bindThemeToggleEvents : JS () :=
  modify (set_click_bound true).

Definition init : JS () :=
  cur ← gets currentTheme;
  applyTheme cur ;;
  watchSystemTheme ;;
  bindThemeToggleEvents ;;
  updateThemeButton.

(** [new ThemeManager()]; the field [currentTheme] is assigned before
    it is read. *)
Definition constructor : JS () :=
  t ← or_else getStoredTheme getSystemTheme;
  modify (set_currentTheme t) ;;
  init.

Definition getCurrentTheme : JS string := gets currentTheme.

Definition setTheme (theme : jsval) : JS () :=
  if strict_eq theme (JStr "light") || strict_eq theme (JStr "dark") then
    match theme with
    | JStr s => applyTheme s ;; updateThemeButton
    | _ => ret ()
    end
  else ret ().

(** ** The two themes and what the claims observe *)

Inductive Theme : Type := light | dark.

Definition theme_name (t : Theme) : string :=
  match t with
  | light => "light"
  | dark => "dark"
  end.

Definition theme_of_matches (e_matches : bool) : Theme :=
  if e_matches then light else dark.

(** The marker attribute of the root element. *)
Definition marker (w : World) : option string :=
  documentElement w !! THEME_ATTRIBUTE.

(** The value stored under the key of the preference. *)
Definition persisted (w : World) : option string :=
  localStorage w !! STORAGE_KEY.

(** The marker a theme asks for. *)
Definition marker_of (theme : string) : option string :=
  if String.eqb theme "light" then Some "light" else None.

(** The document shows the current theme: the marker is [light] exactly
    for the theme [light], and missing exactly for the theme [dark]. *)
Definition marker_reflects (w : World) : Prop :=
  (marker w = Some "light" ↔ currentTheme w = "light") ∧
  (marker w = None ↔ currentTheme w = "dark").

(** The toggle controls already show the current theme: refreshing
    them changes nothing. *)
Definition ui_synced (w : World) : Prop :=
  updateThemeButton w = Normal () w.

(** An element carries what the source writes for the current mode:
    icon, text and labels name the mode a click switches to. *)
Definition shows (isLight : bool) (el : Element) : Prop :=
  (el_id el = "themeIcon" →
     innerHTML el = if isLight then MOON_ICON else SUN_ICON) ∧
  (el_id el = "themeText" →
     textContent el = if isLight then NIGHT else DAY) ∧
  (el_id el = "themeToggleButton" →
     title el = "切换到" +:+ (if isLight then NIGHT else DAY) +:+ "模式" ∧
     el_attrs el !! "aria-label"
     = Some ("切换到" +:+ (if isLight then NIGHT else DAY) +:+ "模式")).

Definition controls_show (w : World) : Prop :=
  Forall (shows (String.eqb (currentTheme w) "light")) (elements w).

(** What the code can read back from the store: nothing when the read
    throws. *)
Definition readable (w : World) : option string :=
  if getItem_throws w then None else persisted w.

(** The guard of [handleChange]: a non-empty string can be read. *)
Definition preference_stored (w : World) : bool := truthy (readable w).

(** What [getSystemTheme] answers in a state. *)
Definition system_theme (w : World) : string :=
  match matchMedia w with
  | Some true => "light"
  | _ => "dark"
  end.

(** ** The transitions of the controller *)

Inductive Op : Type :=
  | OpApply (t : Theme)
  | OpToggle
  | OpSet (v : jsval)
  | OpSystemChange (e_matches : bool).

Definition run_op (o : Op) : JS () :=
  match o with
  | OpApply t => applyTheme (theme_name t)
  | OpToggle => toggleTheme
  | OpSet v => setTheme v
  | OpSystemChange e => handleChange e
  end.

Fixpoint run_ops (os : list Op) : JS () :=
  match os with
  | [] => ret ()
  | o :: os' => run_op o ;; run_ops os'
  end.

(** Whether a transition takes its writing branch in a state. *)
Definition acts (o : Op) (w : World) : bool :=
  match o with
  | OpApply _ => true
  | OpToggle => true
  | OpSet v => strict_eq v (JStr "light") || strict_eq v (JStr "dark")
  | OpSystemChange _ => negb (preference_stored w)
  end.

(** ** Example pages *)

Definition control (id : string) : Element :=
  mkElement id EmptyString EmptyString EmptyString ∅.

(** A page before any script ran: what is stored, what the media query
    answers, and one toggle button with its icon and its text. *)
Definition page (stored : option string) (mm : option bool) : World :=
  mkWorld (match stored with Some s => {[STORAGE_KEY := s]} | None => ∅ end)
    false false mm ∅
    [control "themeToggleButton"; control "themeIcon"; control "themeText"]
    true [] [] false false EmptyString.

(** The same page in a browser whose storage refuses writes. *)
Definition page_readonly (stored : option string) (mm : option bool) : World :=
  mkWorld (match stored with Some s => {[STORAGE_KEY := s]} | None => ∅ end)
    false true mm ∅
    [control "themeToggleButton"; control "themeIcon"; control "themeText"]
    true [] [] false false EmptyString.

Definition corrupt_page : World := page (Some "blue") (Some true).

(** The page after [new ThemeManager()] in a dark system. *)
Definition loaded_page : World :=
  match constructor (page None (Some false)) with
  | Normal _ w => w
  | Thrown _ w => w
  end.

(** The same, with the theme then set to light through [applyTheme]
    alone. *)
Definition applied_page : World :=
  match (constructor ;; applyTheme "light") (page None (Some false)) with
  | Normal _ w => w
  | Thrown _ w => w
  end.

(** ** Final states

    Every operation returns normally; the state it ends in is given
    here as a function of the state it starts from, and proved to be so
    below. *)

Definition after_save (theme : string) (w : World) : World :=
  if setItem_throws w
  then set_console
         (λ c, c ++ [("无法保存主题偏好设置:", DOMException "QuotaExceededError")]) w
  else set_localStorage <[STORAGE_KEY:=theme]> w.

Definition after_apply (theme : string) (w : World) : World :=
  after_save theme
    (set_currentTheme theme
       (set_documentElement
          (if String.eqb theme "light" then <[THEME_ATTRIBUTE:="light"]>
           else delete THEME_ATTRIBUTE) w)).

Definition after_update (w : World) : World :=
  match updateThemeButton w with
  | Normal _ w' => w'
  | Thrown _ w' => w'
  end.

(** What [updateThemeButton] does to one element. *)
Definition refresh (isLight : bool) (el : Element) : Element :=
  let el1 :=
    if String.eqb (el_id el) "themeIcon"
    then set_innerHTML (if isLight then MOON_ICON else SUN_ICON) el else el in
  let el2 :=
    if String.eqb (el_id el1) "themeText"
    then set_textContent (if isLight then NIGHT else DAY) el1 else el1 in
  if String.eqb (el_id el2) "themeToggleButton"
  then el_setAttribute "aria-label"
         ("切换到" +:+ (if isLight then NIGHT else DAY) +:+ "模式")
         (set_title ("切换到" +:+ (if isLight then NIGHT else DAY) +:+ "模式") el2)
  else el2.

Definition after_toggle (w : World) : World :=
  let newTheme := if String.eqb (currentTheme w) "light" then "dark" else "light" in
  let w1 := after_update (after_apply newTheme w) in
  if showToast w1
  then set_toasts
         (λ l, l ++ [("已切换到" +:+ (if String.eqb newTheme "light" then DAY else NIGHT)
                        +:+ "模式", "success")]) w1
  else w1.

Definition after_read (w : World) : World :=
  if getItem_throws w
  then set_console
         (λ c, c ++ [("无法读取主题偏好设置:", DOMException "SecurityError")]) w
  else w.

(** The value of [getStoredTheme() || getSystemTheme()] in a state. *)
Definition initial_theme (w : World) : string :=
  match readable w with
  | Some s => if truthy (Some s) then s else system_theme w
  | None => system_theme w
  end.

Definition after_init (w : World) : World :=
  let w1 := after_apply (currentTheme w) w in
  let w2 := match matchMedia w1 with
            | Some _ => set_watching true w1
            | None => w1
            end in
  after_update (set_click_bound true w2).

(** ** Page load and clicks *)

(** The script as the browser runs it: the early script while the page
    is parsed, [new ThemeManager()] on DOMContentLoaded (lines 230-232). *)
Definition page_load : JS () :=
  IIFE.main ;;
  constructor.






(** The text of the notification for a theme. *)
Definition toast_for (theme : string) : string * string :=
  ("已切换到" +:+ (if String.eqb theme "light" then DAY else NIGHT) +:+ "模式",
   "success").

(** The state a transition ends in. *)
Definition after_op (o : Op) (w : World) : World :=
  match o with
  | OpApply t => after_apply (theme_name t) w
  | OpToggle => after_toggle w
  | OpSet v =>
      if strict_eq v (JStr "light") || strict_eq v (JStr "dark") then
        match v with
        | JStr s => after_update (after_apply s w)
        | _ => w
        end
      else w
  | OpSystemChange e =>
      if preference_stored w then w
      else after_update
             (after_apply (theme_name (theme_of_matches e)) (after_read w))
  end.

(** The state the early script ends in. *)
Definition after_main (w : World) : World :=
  if String.eqb (initial_theme w) "light"
  then set_documentElement <[THEME_ATTRIBUTE:="light"]> w
  else w.

(** What the code never touches: the other keys of the store, the other
    attributes of the root element, the environment it only reads, and
    the number, order and ids of the elements. *)
Definition same_outside (w w' : World) : Prop :=
  (∀ k, k ≠ STORAGE_KEY → localStorage w' !! k = localStorage w !! k) ∧
  (∀ a, a ≠ THEME_ATTRIBUTE → documentElement w' !! a = documentElement w !! a) ∧
  getItem_throws w' = getItem_throws w ∧
  setItem_throws w' = setItem_throws w ∧
  matchMedia w' = matchMedia w ∧
  showToast w' = showToast w ∧
  map el_id (elements w') = map el_id (elements w).


(** A page with a second key in the store, another attribute on the
    root and an element that is no toggle control. *)
Definition busy_page : World :=
  mkWorld {[STORAGE_KEY := "dark"; "lang" := "zh"]} false false (Some true)
    {[ "lang" := "zh-CN" ]}
    [control "themeToggleButton"; control "themeIcon"; control "themeText";
     control "searchBox"]
    true [] [] false false EmptyString.

(** A page in a browser whose storage throws on every access. *)
Definition page_no_storage (mm : option bool) : World :=
  mkWorld ∅ true true mm ∅
    [control "themeToggleButton"; control "themeIcon"; control "themeText"]
    true [] [] false false EmptyString.

(** ** Invariants used below *)

(** The current theme is one of the two and the marker is the one it
    asks for. *)
Definition theme_ok (w : World) : Prop :=
  (currentTheme w = "light" ∨ currentTheme w = "dark") ∧
  marker w = marker_of (currentTheme w).

(** The store refuses writes and holds what it held in [w]. *)
Definition store_kept (w w' : World) : Prop :=
  setItem_throws w' = true ∧ localStorage w' = localStorage w.

(** The store cannot hold a preference: the read throws, or the write
    throws and nothing is stored. *)
Definition no_usable_store (w : World) : Prop :=
  getItem_throws w = true ∨
  (setItem_throws w = true ∧ preference_stored w = false).

(** The store works and the console holds what it held in [w]. *)
Definition quiet (w w' : World) : Prop :=
  getItem_throws w' = false ∧ setItem_throws w' = false ∧ console w' = console w.

(** * Equations of the operations *)

Lemma saveTheme_eq theme w : saveTheme theme w = Normal () (after_save theme w).
Proof.
  unfold saveTheme, try_catch, localStorage_setItem, after_save.
  destruct (setItem_throws w); reflexivity.
Qed.

Lemma applyTheme_eq theme w :
  applyTheme theme w = Normal () (after_apply theme w).
Proof.
  unfold applyTheme, after_apply, bind.
  destruct (String.eqb theme "light"); cbn; apply saveTheme_eq.
Qed.

Lemma updateThemeButton_eq w :
  updateThemeButton w = Normal () (after_update w).
Proof. reflexivity. Qed.

Lemma after_save_currentTheme theme w :
  currentTheme (after_save theme w) = currentTheme w.
Proof. unfold after_save. destruct (setItem_throws w); reflexivity. Qed.

Lemma after_save_documentElement theme w :
  documentElement (after_save theme w) = documentElement w.
Proof. unfold after_save. destruct (setItem_throws w); reflexivity. Qed.

Lemma after_save_elements theme w :
  elements (after_save theme w) = elements w.
Proof. unfold after_save. destruct (setItem_throws w); reflexivity. Qed.

Lemma after_save_toasts theme w :
  toasts (after_save theme w) = toasts w.
Proof. unfold after_save. destruct (setItem_throws w); reflexivity. Qed.

Lemma after_save_persisted theme w :
  setItem_throws w = false → persisted (after_save theme w) = Some theme.
Proof.
  intros Hw. unfold after_save, persisted. rewrite Hw. cbn.
  apply lookup_insert_eq.
Qed.

Lemma after_apply_currentTheme theme w :
  currentTheme (after_apply theme w) = theme.
Proof. unfold after_apply. rewrite after_save_currentTheme. reflexivity. Qed.

Lemma after_apply_marker theme w :
  marker (after_apply theme w) = marker_of theme.
Proof.
  unfold after_apply, marker, marker_of.
  rewrite after_save_documentElement. cbn.
  destruct (String.eqb theme "light").
  - apply lookup_insert_eq.
  - apply lookup_delete_eq.
Qed.

Lemma after_apply_elements theme w :
  elements (after_apply theme w) = elements w.
Proof. unfold after_apply. rewrite after_save_elements. reflexivity. Qed.

Lemma after_apply_toasts theme w :
  toasts (after_apply theme w) = toasts w.
Proof. unfold after_apply. rewrite after_save_toasts. reflexivity. Qed.

Lemma after_apply_persisted theme w :
  setItem_throws w = false → persisted (after_apply theme w) = Some theme.
Proof. intros Hw. unfold after_apply. apply after_save_persisted. exact Hw. Qed.

Lemma after_update_currentTheme w :
  currentTheme (after_update w) = currentTheme w.
Proof. reflexivity. Qed.

Lemma after_update_documentElement w :
  documentElement (after_update w) = documentElement w.
Proof. reflexivity. Qed.

Lemma marker_of_reflects w :
  (currentTheme w = "light" ∨ currentTheme w = "dark") →
  marker w = marker_of (currentTheme w) →
  marker_reflects w.
Proof.
  intros Hth Hm. unfold marker_reflects. rewrite Hm.
  destruct Hth as [-> | ->]; cbn; split; split; intro H; congruence.
Qed.

Lemma after_update_elements w :
  elements (after_update w)
  = map (refresh (String.eqb (currentTheme w) "light")) (elements w).
Proof.
  unfold after_update, updateThemeButton, bind, gets, forEach_id, modify.
  cbn. rewrite !map_map. reflexivity.
Qed.

Lemma after_update_toasts w : toasts (after_update w) = toasts w.
Proof. reflexivity. Qed.

Lemma after_update_localStorage w :
  localStorage (after_update w) = localStorage w.
Proof. reflexivity. Qed.

(** A later refresh overwrites an earlier one. *)
Lemma refresh_refresh b b' el : refresh b (refresh b' el) = refresh b el.
Proof.
  destruct el as [id html text ttl attrs]. unfold refresh. cbn.
  destruct (String.eqb id "themeIcon") eqn:Ei,
    (String.eqb id "themeText") eqn:Et,
    (String.eqb id "themeToggleButton") eqn:Eb;
    repeat (cbn; rewrite ?Ei, ?Et, ?Eb);
    unfold el_setAttribute; cbn; rewrite ?insert_insert_eq; reflexivity.
Qed.

Lemma map_refresh_refresh b b' (els : list Element) :
  map (refresh b) (map (refresh b') els) = map (refresh b) els.
Proof.
  induction els as [|el els IH]; cbn; [reflexivity|].
  rewrite refresh_refresh, IH. reflexivity.
Qed.

Lemma world_eq_elements w (els : list Element) :
  els = elements w → set_elements (λ _, els) w = w.
Proof. intros ->. destruct w; reflexivity. Qed.

Lemma after_update_as_set w :
  after_update w
  = set_elements (λ _, map (refresh (String.eqb (currentTheme w) "light"))
                           (elements w)) w.
Proof.
  unfold after_update, updateThemeButton, bind, gets, forEach_id, modify.
  cbn. unfold set_elements. cbn. rewrite !map_map. reflexivity.
Qed.

Lemma ui_synced_iff w :
  ui_synced w ↔
  map (refresh (String.eqb (currentTheme w) "light")) (elements w) = elements w.
Proof.
  unfold ui_synced. rewrite updateThemeButton_eq. split.
  - intros H. injection H as H. rewrite <- after_update_elements.
    rewrite H. reflexivity.
  - intros H. f_equal. rewrite after_update_as_set.
    apply world_eq_elements. exact H.
Qed.

Lemma after_update_synced w : ui_synced (after_update w).
Proof.
  apply ui_synced_iff. rewrite after_update_currentTheme.
  rewrite after_update_elements. apply map_refresh_refresh.
Qed.

Lemma refresh_shows b el : shows b (refresh b el).
Proof.
  destruct el as [id html text ttl attrs]. unfold shows, refresh. cbn.
  destruct (String.eqb id "themeIcon") eqn:Ei,
    (String.eqb id "themeText") eqn:Et,
    (String.eqb id "themeToggleButton") eqn:Eb;
    repeat (cbn; rewrite ?Ei, ?Et, ?Eb);
    (split; [|split]); intros ->; cbn in *; try discriminate;
    try reflexivity; (split; [reflexivity | apply lookup_insert_eq]).
Qed.

Lemma after_update_shows w : controls_show (after_update w).
Proof.
  unfold controls_show. rewrite after_update_currentTheme, after_update_elements.
  apply Forall_forall. intros el Hel. apply list_elem_of_In in Hel.
  apply in_map_iff in Hel as (el0 & <- & _). apply refresh_shows.
Qed.

Lemma ui_synced_shows w : ui_synced w → controls_show w.
Proof.
  unfold ui_synced. rewrite updateThemeButton_eq. intros H.
  injection H as H. pose proof (after_update_shows w) as Hs.
  rewrite H in Hs. exact Hs.
Qed.

Lemma toggleTheme_eq w : toggleTheme w = Normal () (after_toggle w).
Proof.
  unfold toggleTheme, after_toggle, bind, gets. cbn zeta.
  rewrite applyTheme_eq, updateThemeButton_eq.
  destruct (showToast _); reflexivity.
Qed.

Lemma after_toggle_currentTheme w :
  currentTheme (after_toggle w)
  = if String.eqb (currentTheme w) "light" then "dark" else "light".
Proof.
  unfold after_toggle. cbn zeta.
  destruct (showToast _); cbn; apply after_apply_currentTheme.
Qed.

Lemma after_toggle_marker w :
  marker (after_toggle w) = marker_of (currentTheme (after_toggle w)).
Proof.
  rewrite after_toggle_currentTheme. unfold after_toggle. cbn zeta.
  destruct (showToast _); unfold marker; cbn; apply after_apply_marker.
Qed.

Lemma after_toggle_elements w :
  elements (after_toggle w)
  = map (refresh (negb (String.eqb (currentTheme w) "light"))) (elements w).
Proof.
  unfold after_toggle. cbn zeta.
  assert (E : elements (after_update (after_apply
                (if String.eqb (currentTheme w) "light" then "dark" else "light") w))
              = map (refresh (negb (String.eqb (currentTheme w) "light")))
                    (elements w)).
  { rewrite after_update_elements, after_apply_currentTheme, after_apply_elements.
    destruct (String.eqb (currentTheme w) "light"); reflexivity. }
  destruct (showToast _); cbn; exact E.
Qed.

Lemma getStoredTheme_eq w :
  getStoredTheme w = Normal (readable w) (after_read w).
Proof.
  unfold getStoredTheme, try_catch, localStorage_getItem, readable, after_read,
    persisted.
  destruct (getItem_throws w); reflexivity.
Qed.

Lemma IIFE_getStoredTheme_eq w :
  IIFE.getStoredTheme w = Normal (readable w) w.
Proof.
  unfold IIFE.getStoredTheme, try_catch, localStorage_getItem, readable, persisted.
  destruct (getItem_throws w); reflexivity.
Qed.

Lemma after_read_stored w :
  preference_stored w = true → after_read w = w.
Proof.
  unfold preference_stored, readable, after_read.
  destruct (getItem_throws w); [discriminate | reflexivity].
Qed.

Lemma handleChange_eq e w :
  handleChange e w
  = Normal ()
      (if preference_stored w then w
       else after_update
              (after_apply (theme_name (theme_of_matches e)) (after_read w))).
Proof.
  unfold handleChange, bind. rewrite getStoredTheme_eq. cbn beta iota.
  fold (preference_stored w).
  destruct (preference_stored w) eqn:E; cbn [negb].
  - rewrite after_read_stored by exact E. reflexivity.
  - destruct e; cbn [theme_of_matches theme_name];
      rewrite applyTheme_eq; reflexivity.
Qed.

Lemma setTheme_valid_eq (t : Theme) w :
  setTheme (JStr (theme_name t)) w
  = Normal () (after_update (after_apply (theme_name t) w)).
Proof.
  destruct t; unfold setTheme, bind;
    cbn [theme_name strict_eq String.eqb Ascii.eqb Bool.eqb orb];
    rewrite applyTheme_eq; reflexivity.
Qed.

Lemma setTheme_invalid_eq v w :
  v ≠ JStr "light" → v ≠ JStr "dark" → setTheme v w = Normal () w.
Proof.
  intros Hl Hd. unfold setTheme.
  destruct v as [| | b | n | s]; cbn; try reflexivity.
  destruct (String.eqb_spec s "light") as [-> | _]; [congruence|].
  destruct (String.eqb_spec s "dark") as [-> | _]; [congruence|].
  reflexivity.
Qed.

Lemma theme_name_cases (t : Theme) :
  theme_name t = "light" ∨ theme_name t = "dark".
Proof. destruct t; [left | right]; reflexivity. Qed.

Lemma marker_of_theme (t : Theme) :
  marker_of (theme_name t)
  = match t with light => Some "light" | dark => None end.
Proof. destruct t; reflexivity. Qed.

Lemma after_apply_readable theme w :
  readable (after_apply theme w)
  = if getItem_throws w then None
    else if setItem_throws w then persisted w else Some theme.
Proof.
  unfold readable, after_apply, after_save, persisted. cbn.
  destruct (setItem_throws w); cbn;
    destruct (getItem_throws w); try reflexivity.
  apply lookup_insert_eq.
Qed.

Lemma after_apply_keeps_pref (t : Theme) w :
  preference_stored w = true →
  preference_stored (after_apply (theme_name t) w) = true.
Proof.
  unfold preference_stored. rewrite after_apply_readable.
  unfold readable. destruct (getItem_throws w); [discriminate|].
  destruct (setItem_throws w); [auto|]. intros _. destruct t; reflexivity.
Qed.

Lemma after_update_keeps_pref w :
  preference_stored (after_update w) = preference_stored w.
Proof. reflexivity. Qed.

Lemma after_toggle_keeps_pref w :
  preference_stored w = true → preference_stored (after_toggle w) = true.
Proof.
  intros H. unfold after_toggle. cbn zeta.
  assert (E : ∀ s, (s = "light" ∨ s = "dark") →
               preference_stored (after_update (after_apply s w)) = true).
  { intros s [-> | ->]; rewrite after_update_keeps_pref.
    - apply (after_apply_keeps_pref light); exact H.
    - apply (after_apply_keeps_pref dark); exact H. }
  destruct (showToast _);
    [ change (preference_stored (set_toasts ?f ?x)) with (preference_stored x) | ];
    apply E; destruct (String.eqb (currentTheme w) "light"); auto.
Qed.

Lemma run_op_total o w : ∃ w', run_op o w = Normal () w'.
Proof.
  destruct o as [t | | v | e]; cbn [run_op].
  - eexists. apply applyTheme_eq.
  - eexists. apply toggleTheme_eq.
  - unfold setTheme.
    destruct (strict_eq v (JStr "light") || strict_eq v (JStr "dark"));
      [| eexists; reflexivity].
    destruct v; try (eexists; reflexivity).
    unfold bind. rewrite applyTheme_eq. eexists. reflexivity.
  - eexists. apply handleChange_eq.
Qed.

Lemma strict_eq_theme v :
  strict_eq v (JStr "light") || strict_eq v (JStr "dark") = true →
  ∃ t, v = JStr (theme_name t).
Proof.
  destruct v as [| | b | n | s]; cbn; try discriminate.
  destruct (String.eqb_spec s "light") as [-> | _]; [exists light; reflexivity|].
  destruct (String.eqb_spec s "dark") as [-> | _]; [exists dark; reflexivity|].
  discriminate.
Qed.

Lemma strict_eq_other v :
  strict_eq v (JStr "light") || strict_eq v (JStr "dark") = false →
  v ≠ JStr "light" ∧ v ≠ JStr "dark".
Proof.
  intros H; split; intros ->; cbn in H; discriminate.
Qed.

Lemma run_op_keeps_pref o w :
  preference_stored w = true →
  ∃ w', run_op o w = Normal () w' ∧ preference_stored w' = true.
Proof.
  intros H. destruct o as [t | | v | e]; cbn [run_op].
  - eexists; split; [apply applyTheme_eq|]. apply after_apply_keeps_pref, H.
  - eexists; split; [apply toggleTheme_eq|]. apply after_toggle_keeps_pref, H.
  - destruct (strict_eq v (JStr "light") || strict_eq v (JStr "dark")) eqn:E.
    + apply strict_eq_theme in E as [t ->].
      eexists; split; [apply setTheme_valid_eq|].
      rewrite after_update_keeps_pref. apply after_apply_keeps_pref, H.
    + apply strict_eq_other in E as [E1 E2].
      exists w; split; [apply setTheme_invalid_eq; assumption | exact H].
  - exists w; split; [| exact H]. rewrite handleChange_eq, H. reflexivity.
Qed.

Lemma run_ops_keeps_pref os : ∀ w,
  preference_stored w = true →
  ∃ w', run_ops os w = Normal () w' ∧ preference_stored w' = true.
Proof.
  induction os as [| o os IH]; intros w H; cbn [run_ops].
  - exists w. split; [reflexivity | exact H].
  - destruct (run_op_keeps_pref o w H) as (w1 & E1 & H1).
    destruct (IH w1 H1) as (w2 & E2 & H2).
    exists w2. split; [| exact H2]. unfold bind. rewrite E1. exact E2.
Qed.

Lemma getSystemTheme_eq w : getSystemTheme w = Normal (system_theme w) w.
Proof.
  unfold getSystemTheme, bind, prefers_light, gets, system_theme.
  destruct (matchMedia w) as [[|]|]; reflexivity.
Qed.

Lemma IIFE_getSystemTheme_eq w :
  IIFE.getSystemTheme w = Normal (system_theme w) w.
Proof.
  unfold IIFE.getSystemTheme, bind, prefers_light, gets, system_theme.
  destruct (matchMedia w) as [[|]|]; reflexivity.
Qed.

Lemma IIFE_theme_eq w : IIFE.theme w = Normal (initial_theme w) w.
Proof.
  unfold IIFE.theme, or_else, bind. rewrite IIFE_getStoredTheme_eq.
  unfold initial_theme.
  destruct (readable w) as [s|]; [destruct (truthy (Some s))|];
    try reflexivity; apply IIFE_getSystemTheme_eq.
Qed.

Lemma after_read_matchMedia w : matchMedia (after_read w) = matchMedia w.
Proof. unfold after_read. destruct (getItem_throws w); reflexivity. Qed.

Lemma resolve_eq w :
  or_else getStoredTheme getSystemTheme w
  = Normal (initial_theme w) (after_read w).
Proof.
  unfold or_else, bind. rewrite getStoredTheme_eq. unfold initial_theme.
  assert (E : getSystemTheme (after_read w)
              = Normal (system_theme w) (after_read w)).
  { rewrite getSystemTheme_eq. unfold system_theme.
    rewrite after_read_matchMedia. reflexivity. }
  destruct (readable w) as [s|]; [destruct (truthy (Some s))|];
    try reflexivity; exact E.
Qed.

Lemma init_eq w : init w = Normal () (after_init w).
Proof.
  unfold init, after_init, watchSystemTheme, bindThemeToggleEvents, bind, gets,
    modify.
  rewrite applyTheme_eq. cbn beta iota zeta.
  destruct (matchMedia (after_apply (currentTheme w) w)); reflexivity.
Qed.

Lemma constructor_eq w :
  constructor w
  = Normal () (after_init (set_currentTheme (initial_theme w) (after_read w))).
Proof.
  unfold constructor, bind. rewrite resolve_eq. cbn beta iota.
  unfold modify. apply init_eq.
Qed.

Lemma after_init_currentTheme w : currentTheme (after_init w) = currentTheme w.
Proof.
  unfold after_init. cbn zeta. rewrite after_update_currentTheme.
  destruct (matchMedia _); cbn; apply after_apply_currentTheme.
Qed.

Lemma after_init_marker w :
  marker (after_init w) = marker_of (currentTheme w).
Proof.
  unfold after_init. cbn zeta. unfold marker.
  rewrite after_update_documentElement.
  destruct (matchMedia _); cbn; apply after_apply_marker.
Qed.

Lemma after_init_persisted w :
  setItem_throws w = false →
  persisted (after_init w) = Some (currentTheme w).
Proof.
  intros H. unfold after_init. cbn zeta. unfold persisted.
  rewrite after_update_localStorage.
  destruct (matchMedia _); cbn; apply after_apply_persisted; exact H.
Qed.

Lemma truthy_nonempty s : s ≠ EmptyString → truthy (Some s) = true.
Proof. destruct s; [congruence | reflexivity]. Qed.

Lemma initial_theme_stored w s :
  readable w = Some s → s ≠ EmptyString → initial_theme w = s.
Proof.
  intros H Hs. unfold initial_theme. rewrite H, truthy_nonempty by exact Hs.
  reflexivity.
Qed.

Lemma initial_theme_absent w :
  readable w = None ∨ readable w = Some EmptyString →
  initial_theme w = system_theme w.
Proof. unfold initial_theme. intros [-> | ->]; reflexivity. Qed.

(** * The claims *)

(** C1, as stated, fails: with the corrupt value [blue] stored and a
    system that prefers light, the stored value is not ignored.  Both the
    early script and the constructor take [blue] as the theme, not the
    system theme [light]; the marker stays unset. *)
Lemma corrupt_stored_value_is_used :
  persisted corrupt_page = Some "blue" ∧
  IIFE.getSystemTheme corrupt_page = Normal "light" corrupt_page ∧
  IIFE.theme corrupt_page = Normal "blue" corrupt_page ∧
  IIFE.theme corrupt_page ≠ IIFE.getSystemTheme corrupt_page ∧
  (∃ w', IIFE.main corrupt_page = Normal () w' ∧ marker w' = None) ∧
  (∃ w', constructor corrupt_page = Normal () w' ∧
         currentTheme w' = "blue" ∧ marker w' = None).
Proof.
  split; [reflexivity|]. split; [reflexivity|]. split; [reflexivity|].
  split; [discriminate|]. split.
  - eexists. split; reflexivity.
  - eexists. split; [apply constructor_eq|]. split; reflexivity.
Qed.

(** C1, amended: initial theme resolution falls back to the system
    theme when nothing can be read from the store (no value, or the read
    throws) or the stored value is the empty string; every other stored
    string, in {light, dark} or not, is taken as the initial theme as it
    is. *)
Theorem initial_theme_falls_back_when_falsy (w : World) :
  (readable w = None ∨ readable w = Some EmptyString →
     IIFE.theme w = IIFE.getSystemTheme w ∧
     ∃ w', constructor w = Normal () w' ∧
           getSystemTheme w = Normal (currentTheme w') w) ∧
  (∀ s, readable w = Some s → s ≠ EmptyString →
     IIFE.theme w = Normal s w ∧
     ∃ w', constructor w = Normal () w' ∧ currentTheme w' = s).
Proof.
  split.
  - intros H. split.
    + rewrite IIFE_theme_eq, IIFE_getSystemTheme_eq.
      rewrite (initial_theme_absent w H). reflexivity.
    + eexists. split; [apply constructor_eq|].
      rewrite after_init_currentTheme. cbn.
      rewrite (initial_theme_absent w H). apply getSystemTheme_eq.
  - intros s H Hs. split.
    + rewrite IIFE_theme_eq, (initial_theme_stored w s H Hs). reflexivity.
    + eexists. split; [apply constructor_eq|].
      rewrite after_init_currentTheme. cbn.
      apply (initial_theme_stored w s H Hs).
Qed.

Lemma initial_theme_falls_back_when_falsy_witness :
  (readable (page None (Some true)) = None ∨
   readable (page None (Some true)) = Some EmptyString) ∧
  (IIFE.theme (page None (Some true)) = IIFE.getSystemTheme (page None (Some true)) ∧
   ∃ w', constructor (page None (Some true)) = Normal () w' ∧
         getSystemTheme (page None (Some true))
         = Normal (currentTheme w') (page None (Some true))) ∧
  readable corrupt_page = Some "blue" ∧ "blue" ≠ EmptyString ∧
  (IIFE.theme corrupt_page = Normal "blue" corrupt_page ∧
   ∃ w', constructor corrupt_page = Normal () w' ∧ currentTheme w' = "blue").
Proof.
  split; [left; reflexivity|].
  split.
  { apply (proj1 (initial_theme_falls_back_when_falsy (page None (Some true)))).
    left; reflexivity. }
  split; [reflexivity|]. split; [discriminate|].
  apply (proj2 (initial_theme_falls_back_when_falsy corrupt_page) "blue").
  - reflexivity.
  - discriminate.
Defined.

(** C2 does not hold of the code: on a first visit (nothing stored, a
    system that prefers light) the early script leaves the store alone,
    but [new ThemeManager()] writes the resolved theme under the key
    although nobody toggled or set a theme, and so does the
    system-change listener when it follows the system. *)
Theorem initial_load_writes_the_store :
  persisted (page None (Some true)) = None ∧
  (∃ w', IIFE.main (page None (Some true)) = Normal () w' ∧
         persisted w' = None) ∧
  (∃ w', constructor (page None (Some true)) = Normal () w' ∧
         persisted w' = Some "light") ∧
  (∃ w', handleChange false (page None (Some true)) = Normal () w' ∧
         persisted w' = Some "dark").
Proof.
  split; [reflexivity|]. split; [|split].
  - eexists. split; reflexivity.
  - eexists. split; [apply constructor_eq|]. reflexivity.
  - eexists. split; [apply handleChange_eq|]. reflexivity.
Qed.

(** C3: every transition (applyTheme of a theme, toggleTheme, setTheme,
    the system-change listener) returns normally, and when it took its
    writing branch the marker attribute is [light] exactly when the
    current theme is [light] and missing exactly when it is [dark]; when
    it did not, the state is the one before. *)
Theorem marker_reflects_after_transition (o : Op) (w : World) :
  ∃ w', run_op o w = Normal () w' ∧
        if acts o w then marker_reflects w' else w' = w.
Proof.
  destruct o as [t | | v | e]; cbn [run_op acts].
  - eexists. split; [apply applyTheme_eq|].
    apply marker_of_reflects; rewrite after_apply_currentTheme.
    + apply theme_name_cases.
    + apply after_apply_marker.
  - eexists. split; [apply toggleTheme_eq|].
    apply marker_of_reflects; [| apply after_toggle_marker].
    rewrite after_toggle_currentTheme.
    destruct (String.eqb (currentTheme w) "light"); auto.
  - destruct (strict_eq v (JStr "light") || strict_eq v (JStr "dark")) eqn:E.
    + apply strict_eq_theme in E as [t ->].
      eexists. split; [apply setTheme_valid_eq|].
      apply marker_of_reflects;
        rewrite after_update_currentTheme, after_apply_currentTheme.
      * apply theme_name_cases.
      * apply after_apply_marker.
    + apply strict_eq_other in E as [E1 E2].
      exists w. split; [apply setTheme_invalid_eq; assumption | reflexivity].
  - eexists. split; [apply handleChange_eq|].
    destruct (preference_stored w); cbn [negb]; [reflexivity|].
    apply marker_of_reflects;
      rewrite after_update_currentTheme, after_apply_currentTheme.
    + apply theme_name_cases.
    + apply after_apply_marker.
Qed.



(** C5: for a theme [t], [applyTheme t] returns normally; afterwards
    [getCurrentTheme] returns [t], the marker attribute is [light] for
    [light] and removed for [dark], and, the write to the store not
    throwing, the persisted value is [t]. *)
Theorem applyTheme_sets_theme (t : Theme) (w : World) :
  ∃ w', applyTheme (theme_name t) w = Normal () w' ∧
        getCurrentTheme w' = Normal (theme_name t) w' ∧
        marker w' = match t with light => Some "light" | dark => None end ∧
        (setItem_throws w = false → persisted w' = Some (theme_name t)).
Proof.
  eexists. split; [apply applyTheme_eq|]. split; [|split].
  - unfold getCurrentTheme, gets. rewrite after_apply_currentTheme. reflexivity.
  - rewrite after_apply_marker. apply marker_of_theme.
  - apply after_apply_persisted.
Qed.

Lemma applyTheme_sets_theme_witness :
  setItem_throws (page (Some "dark") (Some false)) = false ∧
  ∃ w', applyTheme "light" (page (Some "dark") (Some false)) = Normal () w' ∧
        getCurrentTheme w' = Normal "light" w' ∧
        marker w' = Some "light" ∧
        persisted w' = Some "light".
Proof.
  split; [reflexivity|].
  destruct (applyTheme_sets_theme light (page (Some "dark") (Some false)))
    as (w' & E & Hc & Hm & Hp).
  exists w'. split; [exact E|]. split; [exact Hc|]. split; [exact Hm|].
  apply Hp. reflexivity.
Defined.

(** C6, as stated, fails: after [new ThemeManager()] in a dark system
    and [applyTheme('light')], the current theme is [light] while the
    text control still carries the label written for dark; two toggles
    bring the theme back to [light] but leave another label and another
    icon than the ones they started from. *)
Lemma toggle_twice_changes_stale_controls :
  (constructor ;; applyTheme "light") (page None (Some false))
  = Normal () applied_page ∧
  currentTheme applied_page = "light" ∧
  ∃ w2, (toggleTheme ;; toggleTheme) applied_page = Normal () w2 ∧
        currentTheme w2 = "light" ∧
        map textContent (elements applied_page) = [EmptyString; EmptyString; DAY] ∧
        map textContent (elements w2) = [EmptyString; EmptyString; NIGHT] ∧
        map textContent (elements w2) ≠ map textContent (elements applied_page) ∧
        map innerHTML (elements w2) ≠ map innerHTML (elements applied_page).
Proof.
  split; [vm_compute; reflexivity|]. split; [vm_compute; reflexivity|].
  eexists. split; [vm_compute; reflexivity|].
  split; [vm_compute; reflexivity|]. split; [vm_compute; reflexivity|].
  split; [vm_compute; reflexivity|].
  split; vm_compute; discriminate.
Qed.

(** C6, amended: from every state whose current theme is [light] or
    [dark], two consecutive toggles return normally and restore the
    current theme; the toggle controls end as a refresh for the original
    theme leaves them, which is as they were whenever they showed the
    original theme at the start. *)
Theorem toggle_twice_restores (w : World) :
  currentTheme w = "light" ∨ currentTheme w = "dark" →
  ∃ w2, (toggleTheme ;; toggleTheme) w = Normal () w2 ∧
        currentTheme w2 = currentTheme w ∧
        (∃ wu, updateThemeButton w = Normal () wu ∧ elements w2 = elements wu) ∧
        (ui_synced w → elements w2 = elements w).
Proof.
  intros H. exists (after_toggle (after_toggle w)).
  assert (Hc : currentTheme (after_toggle (after_toggle w)) = currentTheme w).
  { rewrite !after_toggle_currentTheme. destruct H as [-> | ->]; reflexivity. }
  assert (He : elements (after_toggle (after_toggle w))
               = map (refresh (String.eqb (currentTheme w) "light")) (elements w)).
  { rewrite !after_toggle_elements, after_toggle_currentTheme.
    rewrite map_refresh_refresh. destruct H as [-> | ->]; reflexivity. }
  split; [|split; [exact Hc | split]].
  - unfold bind. rewrite toggleTheme_eq. apply toggleTheme_eq.
  - exists (after_update w). split; [apply updateThemeButton_eq|].
    rewrite He, after_update_elements. reflexivity.
  - intros Hs. rewrite He. apply ui_synced_iff. exact Hs.
Qed.

Lemma toggle_twice_restores_witness :
  constructor (page None (Some false)) = Normal () loaded_page ∧
  (currentTheme loaded_page = "light" ∨ currentTheme loaded_page = "dark") ∧
  ∃ w2, (toggleTheme ;; toggleTheme) loaded_page = Normal () w2 ∧
        currentTheme w2 = "dark" ∧
        elements w2 = elements loaded_page.
Proof.
  split; [vm_compute; reflexivity|].
  split; [right; vm_compute; reflexivity|].
  destruct (toggle_twice_restores loaded_page
              (or_intror (eq_refl : currentTheme loaded_page = "dark")))
    as (w2 & E & Hc & _ & Hs).
  exists w2. split; [exact E|]. split; [exact Hc|].
  apply Hs. vm_compute. reflexivity.
Defined.



(** C8: when the write to the store throws, [saveTheme] still returns
    normally and leaves the store as it was, and [applyTheme] returns
    normally with the current theme and the marker attribute updated, the
    same as in the run where the write succeeds. *)
Theorem storage_write_failure_is_swallowed (theme : string) (w : World) :
  setItem_throws w = true →
  (∃ w', saveTheme theme w = Normal () w' ∧ localStorage w' = localStorage w) ∧
  (∃ w', applyTheme theme w = Normal () w' ∧
         currentTheme w' = theme ∧
         marker w' = marker_of theme ∧
         ∃ w2, applyTheme theme (set_setItem_throws false w) = Normal () w2 ∧
               currentTheme w' = currentTheme w2 ∧
               documentElement w' = documentElement w2).
Proof.
  intros H. split.
  - eexists. split; [apply saveTheme_eq|].
    unfold after_save. rewrite H. reflexivity.
  - eexists. split; [apply applyTheme_eq|].
    split; [apply after_apply_currentTheme|].
    split; [apply after_apply_marker|].
    eexists. split; [apply applyTheme_eq|].
    rewrite !after_apply_currentTheme. split; [reflexivity|].
    unfold after_apply. rewrite !after_save_documentElement. reflexivity.
Qed.

Lemma storage_write_failure_is_swallowed_witness :
  setItem_throws (page_readonly None (Some false)) = true ∧
  (∃ w', saveTheme "light" (page_readonly None (Some false)) = Normal () w' ∧
         localStorage w' = localStorage (page_readonly None (Some false))) ∧
  (∃ w', applyTheme "light" (page_readonly None (Some false)) = Normal () w' ∧
         currentTheme w' = "light" ∧
         marker w' = marker_of "light" ∧
         ∃ w2, applyTheme "light"
                 (set_setItem_throws false (page_readonly None (Some false)))
               = Normal () w2 ∧
               currentTheme w' = currentTheme w2 ∧
               documentElement w' = documentElement w2).
Proof.
  split; [reflexivity|].
  apply (storage_write_failure_is_swallowed "light"
           (page_readonly None (Some false))).
  reflexivity.
Defined.

(** C9: for every value other than the strings [light] and [dark],
    [setTheme] returns normally and leaves the whole state as it was
    (current theme, marker attribute, store and controls included); for
    [light] and [dark] it does what [applyTheme] followed by
    [updateThemeButton] does, so the theme is current, the marker follows
    it, the controls are refreshed, and no notification is emitted. *)
Theorem setTheme_validates (w : World) :
  (∀ v, v ≠ JStr "light" → v ≠ JStr "dark" → setTheme v w = Normal () w) ∧
  (∀ t : Theme,
     ∃ w', setTheme (JStr (theme_name t)) w = Normal () w' ∧
           (applyTheme (theme_name t) ;; updateThemeButton) w = Normal () w' ∧
           currentTheme w' = theme_name t ∧
           marker w' = marker_of (theme_name t) ∧
           controls_show w' ∧
           ui_synced w' ∧
           toasts w' = toasts w).
Proof.
  split.
  - intros v Hl Hd. apply setTheme_invalid_eq; assumption.
  - intros t. eexists. split; [apply setTheme_valid_eq|].
    split; [unfold bind; rewrite applyTheme_eq; reflexivity|].
    rewrite after_update_currentTheme, after_apply_currentTheme.
    split; [reflexivity|]. split; [apply after_apply_marker|].
    split; [apply after_update_shows|].
    split; [apply after_update_synced|].
    rewrite after_update_toasts. apply after_apply_toasts.
Qed.

Lemma setTheme_validates_witness :
  JStr "blue" ≠ JStr "light" ∧ JStr "blue" ≠ JStr "dark" ∧
  setTheme (JStr "blue") (page None (Some false))
  = Normal () (page None (Some false)) ∧
  JNull ≠ JStr "light" ∧ JNull ≠ JStr "dark" ∧
  setTheme JNull (page None (Some false)) = Normal () (page None (Some false)).
Proof.
  split; [discriminate|]. split; [discriminate|]. split.
  { apply (proj1 (setTheme_validates (page None (Some false))) (JStr "blue"));
      discriminate. }
  split; [discriminate|]. split; [discriminate|].
  apply (proj1 (setTheme_validates (page None (Some false))) JNull); discriminate.
Defined.



(** * Further properties of the code *)

(** ** Fields of the final states *)

Lemma World_ext (w1 w2 : World) :
  localStorage w1 = localStorage w2 →
  getItem_throws w1 = getItem_throws w2 →
  setItem_throws w1 = setItem_throws w2 →
  matchMedia w1 = matchMedia w2 →
  documentElement w1 = documentElement w2 →
  elements w1 = elements w2 →
  showToast w1 = showToast w2 →
  toasts w1 = toasts w2 →
  console w1 = console w2 →
  watching w1 = watching w2 →
  click_bound w1 = click_bound w2 →
  currentTheme w1 = currentTheme w2 →
  w1 = w2.
Proof.
  destruct w1, w2. cbn. intros. subst. reflexivity.
Qed.

Lemma after_apply_localStorage theme w :
  localStorage (after_apply theme w)
  = if setItem_throws w then localStorage w
    else <[STORAGE_KEY:=theme]> (localStorage w).
Proof.
  unfold after_apply, after_save. cbn. destruct (setItem_throws w); reflexivity.
Qed.

Lemma after_apply_documentElement theme w :
  documentElement (after_apply theme w)
  = if String.eqb theme "light"
    then <[THEME_ATTRIBUTE:="light"]> (documentElement w)
    else delete THEME_ATTRIBUTE (documentElement w).
Proof.
  unfold after_apply. rewrite after_save_documentElement. cbn.
  destruct (String.eqb theme "light"); reflexivity.
Qed.

Lemma after_apply_console theme w :
  console (after_apply theme w)
  = if setItem_throws w
    then console w ++ [("无法保存主题偏好设置:", DOMException "QuotaExceededError")]
    else console w.
Proof.
  unfold after_apply, after_save. cbn. destruct (setItem_throws w); reflexivity.
Qed.

Lemma after_apply_env theme w :
  getItem_throws (after_apply theme w) = getItem_throws w ∧
  setItem_throws (after_apply theme w) = setItem_throws w ∧
  matchMedia (after_apply theme w) = matchMedia w ∧
  showToast (after_apply theme w) = showToast w ∧
  watching (after_apply theme w) = watching w ∧
  click_bound (after_apply theme w) = click_bound w.
Proof.
  unfold after_apply, after_save. cbn.
  destruct (setItem_throws w) eqn:E; cbn; rewrite ?E; repeat split.
Qed.

Lemma after_read_fields w :
  localStorage (after_read w) = localStorage w ∧
  getItem_throws (after_read w) = getItem_throws w ∧
  setItem_throws (after_read w) = setItem_throws w ∧
  showToast (after_read w) = showToast w ∧
  documentElement (after_read w) = documentElement w ∧
  elements (after_read w) = elements w ∧
  toasts (after_read w) = toasts w ∧
  watching (after_read w) = watching w ∧
  click_bound (after_read w) = click_bound w ∧
  currentTheme (after_read w) = currentTheme w.
Proof.
  unfold after_read. destruct (getItem_throws w) eqn:E; cbn; rewrite ?E;
    repeat split.
Qed.

Lemma after_toggle_as_update w :
  ∃ f, after_toggle w
       = set_toasts f
           (after_update
              (after_apply
                 (if String.eqb (currentTheme w) "light" then "dark" else "light")
                 w)) ∧
       f (toasts w)
       = toasts w ++
         (if showToast w
          then [toast_for (if String.eqb (currentTheme w) "light"
                           then "dark" else "light")]
          else []).
Proof.
  unfold after_toggle. cbn zeta.
  set (nt := if String.eqb (currentTheme w) "light" then "dark" else "light").
  assert (Hs : showToast (after_update (after_apply nt w)) = showToast w).
  { change (showToast (after_apply nt w) = showToast w).
    apply (after_apply_env nt w). }
  rewrite Hs. destruct (showToast w).
  - eexists. split; [reflexivity|]. reflexivity.
  - exists (λ l, l). split.
    + destruct (after_update (after_apply nt w)); reflexivity.
    + rewrite app_nil_r. reflexivity.
Qed.

Lemma run_op_eq o w : run_op o w = Normal () (after_op o w).
Proof.
  destruct o as [t | | v | e]; cbn [run_op after_op].
  - apply applyTheme_eq.
  - apply toggleTheme_eq.
  - destruct (strict_eq v (JStr "light") || strict_eq v (JStr "dark")) eqn:E.
    + destruct (strict_eq_theme v E) as [t ->]. apply setTheme_valid_eq.
    + apply strict_eq_other in E as [E1 E2].
      apply setTheme_invalid_eq; assumption.
  - apply handleChange_eq.
Qed.

Lemma run_ops_invariant (P : World → Prop) :
  (∀ o w, P w → P (after_op o w)) →
  ∀ os w, P w → ∃ w', run_ops os w = Normal () w' ∧ P w'.
Proof.
  intros Hstep os. induction os as [| o os IH]; intros w Hw; cbn [run_ops].
  - exists w. split; [reflexivity | exact Hw].
  - destruct (IH (after_op o w) (Hstep o w Hw)) as (w' & E & Hw').
    exists w'. split; [| exact Hw']. unfold bind. rewrite run_op_eq. exact E.
Qed.

Lemma IIFE_main_eq w : IIFE.main w = Normal () (after_main w).
Proof.
  unfold IIFE.main, bind, after_main. rewrite IIFE_theme_eq.
  destruct (String.eqb (initial_theme w) "light"); reflexivity.
Qed.

Lemma initial_theme_after_main w :
  initial_theme (after_main w) = initial_theme w.
Proof.
  unfold after_main. destruct (String.eqb (initial_theme w) "light"); reflexivity.
Qed.

Lemma initial_theme_nonempty w : initial_theme w ≠ EmptyString.
Proof.
  unfold initial_theme, system_theme.
  destruct (readable w) as [[|c s]|]; cbn;
    destruct (matchMedia w) as [[|]|]; discriminate.
Qed.

Lemma page_load_eq w :
  page_load w
  = Normal ()
      (after_init (set_currentTheme (initial_theme w) (after_read (after_main w)))).
Proof.
  unfold page_load, bind. rewrite IIFE_main_eq, constructor_eq.
  rewrite initial_theme_after_main. reflexivity.
Qed.

(** ** The early script *)

(** X1: the early script returns normally and writes nothing but the
    marker attribute: the store, the elements, the console, the toasts
    and every other root attribute are as before, also when the read of
    the store throws.  It sets the marker to [light] when the resolved
    theme is [light] and otherwise leaves the marker as it found it; it
    never removes one. *)
Theorem early_script_only_sets_marker (w : World) :
  ∃ t w', IIFE.theme w = Normal t w ∧
          IIFE.main w = Normal () w' ∧
          marker w' = (if String.eqb t "light" then Some "light" else marker w) ∧
          (∀ a, a ≠ THEME_ATTRIBUTE →
                documentElement w' !! a = documentElement w !! a) ∧
          localStorage w' = localStorage w ∧
          elements w' = elements w ∧
          console w' = console w ∧
          toasts w' = toasts w ∧
          currentTheme w' = currentTheme w.
Proof.
  exists (initial_theme w), (after_main w).
  split; [apply IIFE_theme_eq|]. split; [apply IIFE_main_eq|].
  unfold after_main, marker.
  destruct (String.eqb (initial_theme w) "light"); cbn.
  - split; [apply lookup_insert_eq|].
    split; [intros a Ha; apply lookup_insert_ne; congruence|].
    repeat split.
  - repeat split.
Qed.

Lemma early_script_only_sets_marker_witness :
  ∃ w', IIFE.main busy_page = Normal () w' ∧
        documentElement w' !! "lang" = Some "zh-CN" ∧
        localStorage w' = localStorage busy_page.
Proof.
  destruct (early_script_only_sets_marker busy_page)
    as (t & w' & _ & E & _ & Ha & Hl & _).
  exists w'. split; [exact E|]. split; [| exact Hl].
  rewrite Ha; [vm_compute; reflexivity | unfold THEME_ATTRIBUTE; discriminate].
Defined.

(** X2: on a page whose root element carries no marker, the marker the
    early script leaves is the marker [new ThemeManager()] leaves after
    it: the constructor does not change what was painted first, whatever
    is stored and whether or not the store can be used. *)
Theorem constructor_agrees_with_early_script (w : World) :
  marker w = None →
  ∃ w1 w2, IIFE.main w = Normal () w1 ∧
           constructor w1 = Normal () w2 ∧
           marker w2 = marker w1.
Proof.
  intros Hm. exists (after_main w). eexists.
  split; [apply IIFE_main_eq|]. split; [apply constructor_eq|].
  rewrite after_init_marker. cbn. rewrite initial_theme_after_main.
  unfold after_main, marker_of, marker.
  destruct (String.eqb (initial_theme w) "light"); cbn.
  - symmetry. apply lookup_insert_eq.
  - symmetry. exact Hm.
Qed.

Lemma constructor_agrees_with_early_script_witness :
  marker corrupt_page = None ∧
  ∃ w1 w2, IIFE.main corrupt_page = Normal () w1 ∧
           constructor w1 = Normal () w2 ∧
           marker w2 = marker w1.
Proof.
  split; [reflexivity|].
  apply (constructor_agrees_with_early_script corrupt_page). reflexivity.
Defined.

(** ** Load followed by transitions *)

Lemma after_init_fields w :
  localStorage (after_init w) = localStorage (after_apply (currentTheme w) w) ∧
  documentElement (after_init w)
  = documentElement (after_apply (currentTheme w) w) ∧
  toasts (after_init w) = toasts w ∧
  getItem_throws (after_init w) = getItem_throws w ∧
  setItem_throws (after_init w) = setItem_throws w ∧
  matchMedia (after_init w) = matchMedia w ∧
  showToast (after_init w) = showToast w ∧
  click_bound (after_init w) = true ∧
  watching (after_init w)
  = match matchMedia w with Some _ => true | None => watching w end ∧
  elements (after_init w)
  = map (refresh (String.eqb (currentTheme w) "light")) (elements w).
Proof.
  unfold after_init. cbn zeta.
  destruct (after_apply_env (currentTheme w) w) as (Hg & Hs & Hm & Ht & Hw & Hc).
  rewrite Hm.
  assert (He : ∀ x, currentTheme x = currentTheme w → elements x = elements w →
                elements (after_update x)
                = map (refresh (String.eqb (currentTheme w) "light")) (elements w)).
  { intros x Hx1 Hx2. rewrite after_update_elements, Hx1, Hx2. reflexivity. }
  destruct (matchMedia w); cbn;
    rewrite ?Hg, ?Hs, ?Hm, ?Ht, ?Hw, ?after_apply_toasts;
    repeat split;
    apply He; cbn;
      (apply after_apply_currentTheme || apply after_apply_elements).
Qed.

Lemma after_op_theme_ok o w : theme_ok w → theme_ok (after_op o w).
Proof.
  intros Hw. destruct o as [t | | v | e]; cbn [after_op].
  - split; rewrite after_apply_currentTheme;
      [apply theme_name_cases | apply after_apply_marker].
  - split; [| apply after_toggle_marker].
    rewrite after_toggle_currentTheme.
    destruct (String.eqb (currentTheme w) "light"); auto.
  - destruct (strict_eq v (JStr "light") || strict_eq v (JStr "dark")) eqn:E;
      [| exact Hw].
    destruct (strict_eq_theme v E) as [t ->].
    split; rewrite after_update_currentTheme, after_apply_currentTheme;
      [apply theme_name_cases | apply after_apply_marker].
  - destruct (preference_stored w); [exact Hw|].
    split; rewrite after_update_currentTheme, after_apply_currentTheme;
      [apply theme_name_cases | apply after_apply_marker].
Qed.

Lemma system_theme_cases w : system_theme w = "light" ∨ system_theme w = "dark".
Proof. unfold system_theme. destruct (matchMedia w) as [[|]|]; auto. Qed.

Lemma bind_eq {A B} (m : JS A) (k : A → JS B) w a w1 :
  m w = Normal a w1 → bind m k w = k a w1.
Proof. intros H. unfold bind. rewrite H. reflexivity. Qed.

(** X3: when the store holds nothing that can be read, the empty
    string, [light] or [dark], then after the page has loaded and after
    any sequence of transitions the current theme is [light] or [dark]
    and the marker attribute reflects it. *)
Theorem document_reflects_theme_after_load (os : list Op) (w : World) :
  readable w = None ∨ readable w = Some EmptyString ∨
  readable w = Some "light" ∨ readable w = Some "dark" →
  ∃ w', (page_load ;; run_ops os) w = Normal () w' ∧
        (currentTheme w' = "light" ∨ currentTheme w' = "dark") ∧
        marker_reflects w'.
Proof.
  intros Hr.
  assert (Hi : initial_theme w = "light" ∨ initial_theme w = "dark").
  { unfold initial_theme.
    destruct Hr as [-> | [-> | [-> | ->]]]; cbn; auto using system_theme_cases. }
  assert (H0 : theme_ok (after_init (set_currentTheme (initial_theme w)
                                       (after_read (after_main w))))).
  { split; [rewrite after_init_currentTheme; exact Hi|].
    rewrite after_init_marker, after_init_currentTheme. reflexivity. }
  destruct (run_ops_invariant theme_ok after_op_theme_ok os _ H0)
    as (w' & E & Hv & Hm).
  exists w'. split.
  - rewrite (bind_eq _ _ _ _ _ (page_load_eq w)). exact E.
  - split; [exact Hv | apply marker_of_reflects; assumption].
Qed.

Lemma document_reflects_theme_after_load_witness :
  (readable (page None (Some true)) = None ∨
   readable (page None (Some true)) = Some EmptyString ∨
   readable (page None (Some true)) = Some "light" ∨
   readable (page None (Some true)) = Some "dark") ∧
  ∃ w', (page_load ;; run_ops [OpToggle; OpSystemChange false; OpSet JNull])
          (page None (Some true)) = Normal () w' ∧
        (currentTheme w' = "light" ∨ currentTheme w' = "dark") ∧
        marker_reflects w'.
Proof.
  split; [left; reflexivity|].
  apply (document_reflects_theme_after_load
           [OpToggle; OpSystemChange false; OpSet JNull] (page None (Some true))).
  left; reflexivity.
Defined.

Lemma toasts_after_load w :
  toasts (after_init (set_currentTheme (initial_theme w)
                        (after_read (after_main w)))) = toasts w.
Proof.
  destruct (after_init_fields (set_currentTheme (initial_theme w)
                                 (after_read (after_main w))))
    as (_ & _ & Ht & _).
  rewrite Ht. cbn.
  destruct (after_read_fields (after_main w)) as (_ & _ & _ & _ & _ & _ & Hr & _).
  rewrite Hr. unfold after_main.
  destruct (String.eqb (initial_theme w) "light"); reflexivity.
Qed.

(** X4: only a toggle notifies.  [toggleTheme] appends exactly one
    notification, tagged [success] and naming the mode it switched to,
    when [showToast] is a function, and none when it is not; the page
    load and every other transition leave the notifications as they
    were. *)
Theorem only_toggle_notifies (w : World) :
  (∃ w', page_load w = Normal () w' ∧ toasts w' = toasts w) ∧
  (∀ o, ∃ w', run_op o w = Normal () w' ∧
              toasts w'
              = toasts w ++
                match o with
                | OpToggle =>
                    if showToast w then [toast_for (currentTheme w')] else []
                | _ => []
                end).
Proof.
  split.
  - eexists. split; [apply page_load_eq | apply toasts_after_load].
  - intros o. exists (after_op o w). split; [apply run_op_eq|].
    destruct o as [t | | v | e]; cbn [after_op]; rewrite ?app_nil_r.
    + apply after_apply_toasts.
    + rewrite after_toggle_currentTheme.
      destruct (after_toggle_as_update w) as (f & -> & Hf).
      cbn. rewrite after_apply_toasts. exact Hf.
    + destruct (strict_eq v (JStr "light") || strict_eq v (JStr "dark")) eqn:E;
        [| reflexivity].
      destruct (strict_eq_theme v E) as [t ->].
      rewrite after_update_toasts. apply after_apply_toasts.
    + destruct (preference_stored w); [reflexivity|].
      rewrite after_update_toasts, after_apply_toasts.
      apply (after_read_fields w).
Qed.

Lemma same_outside_refl w : same_outside w w.
Proof. unfold same_outside. repeat split. Qed.

Lemma same_outside_trans w1 w2 w3 :
  same_outside w1 w2 → same_outside w2 w3 → same_outside w1 w3.
Proof.
  intros (A1 & A2 & A3 & A4 & A5 & A6 & A7) (B1 & B2 & B3 & B4 & B5 & B6 & B7).
  unfold same_outside. repeat split; try congruence.
  - intros k Hk. rewrite B1, A1 by exact Hk. reflexivity.
  - intros a Ha. rewrite B2, A2 by exact Ha. reflexivity.
Qed.

(** States that agree on the store, the root attributes, the
    environment and the elements. *)
Lemma same_outside_fields w w' :
  localStorage w' = localStorage w →
  documentElement w' = documentElement w →
  getItem_throws w' = getItem_throws w →
  setItem_throws w' = setItem_throws w →
  matchMedia w' = matchMedia w →
  showToast w' = showToast w →
  elements w' = elements w →
  same_outside w w'.
Proof.
  intros H1 H2 H3 H4 H5 H6 H7. unfold same_outside.
  rewrite H1, H2, H3, H4, H5, H6, H7. repeat split.
Qed.

Lemma el_id_refresh b el : el_id (refresh b el) = el_id el.
Proof.
  destruct el as [id html text ttl attrs]. unfold refresh. cbn.
  destruct (String.eqb id "themeIcon") eqn:Ei,
    (String.eqb id "themeText") eqn:Et,
    (String.eqb id "themeToggleButton") eqn:Eb;
    repeat (cbn; rewrite ?Ei, ?Et, ?Eb); reflexivity.
Qed.

Lemma map_el_id_refresh b (els : list Element) :
  map el_id (map (refresh b) els) = map el_id els.
Proof.
  induction els as [| el els IH]; cbn; [reflexivity|].
  rewrite el_id_refresh, IH. reflexivity.
Qed.

Lemma same_outside_apply theme w : same_outside w (after_apply theme w).
Proof.
  destruct (after_apply_env theme w) as (Hg & Hs & Hm & Ht & _).
  unfold same_outside.
  rewrite after_apply_localStorage, after_apply_documentElement,
    after_apply_elements, Hg, Hs, Hm, Ht.
  split; [|split; [|repeat split]].
  - intros k Hk. destruct (setItem_throws w); [reflexivity|].
    apply lookup_insert_ne. congruence.
  - intros a Ha. destruct (String.eqb theme "light").
    + apply lookup_insert_ne. congruence.
    + apply lookup_delete_ne. congruence.
Qed.

Lemma same_outside_update w : same_outside w (after_update w).
Proof.
  unfold same_outside. rewrite after_update_elements, map_el_id_refresh.
  repeat split.
Qed.

Lemma same_outside_read w : same_outside w (after_read w).
Proof.
  unfold after_read. destruct (getItem_throws w) eqn:E;
    [| apply same_outside_refl].
  apply same_outside_fields; reflexivity.
Qed.

Lemma same_outside_toggle w : same_outside w (after_toggle w).
Proof.
  destruct (after_toggle_as_update w) as (f & -> & _).
  eapply same_outside_trans; [apply same_outside_apply|].
  eapply same_outside_trans; [apply same_outside_update|].
  apply same_outside_fields; reflexivity.
Qed.

Lemma same_outside_op o w : same_outside w (after_op o w).
Proof.
  destruct o as [t | | v | e]; cbn [after_op].
  - apply same_outside_apply.
  - apply same_outside_toggle.
  - destruct (strict_eq v (JStr "light") || strict_eq v (JStr "dark"));
      [| apply same_outside_refl].
    destruct v; try apply same_outside_refl.
    eapply same_outside_trans; [apply same_outside_apply|].
    apply same_outside_update.
  - destruct (preference_stored w); [apply same_outside_refl|].
    eapply same_outside_trans; [apply same_outside_read|].
    eapply same_outside_trans; [apply same_outside_apply|].
    apply same_outside_update.
Qed.

Lemma same_outside_main w : same_outside w (after_main w).
Proof.
  unfold after_main. destruct (String.eqb (initial_theme w) "light");
    [| apply same_outside_refl].
  unfold same_outside. cbn. repeat split.
  intros a Ha. apply lookup_insert_ne. congruence.
Qed.

Lemma same_outside_init w : same_outside w (after_init w).
Proof.
  unfold after_init. cbn zeta.
  eapply same_outside_trans; [apply same_outside_apply|].
  eapply same_outside_trans; [| apply same_outside_update].
  destruct (matchMedia _); apply same_outside_fields; reflexivity.
Qed.

Lemma same_outside_load w :
  same_outside w
    (after_init (set_currentTheme (initial_theme w) (after_read (after_main w)))).
Proof.
  eapply same_outside_trans; [apply same_outside_main|].
  eapply same_outside_trans; [apply same_outside_read|].
  eapply same_outside_trans; [| apply same_outside_init].
  apply same_outside_fields; reflexivity.
Qed.

(** X5: the page load followed by any sequence of transitions returns
    normally and stays within its own names: every key of the store other
    than [theme-preference] and every root attribute other than
    [data-theme] keep their values, the elements keep their number, order
    and ids, and the environment the code reads (storage behaviour, media
    query, toast function) is left alone. *)
Theorem code_keeps_to_its_key_and_attribute (os : list Op) (w : World) :
  ∃ w', (page_load ;; run_ops os) w = Normal () w' ∧ same_outside w w'.
Proof.
  destruct (run_ops_invariant (same_outside w)
              (λ o x Hx, same_outside_trans _ _ _ Hx (same_outside_op o x))
              os _ (same_outside_load w))
    as (w' & E & Hw').
  exists w'. split; [| exact Hw'].
  rewrite (bind_eq _ _ _ _ _ (page_load_eq w)). exact E.
Qed.

Lemma code_keeps_to_its_key_and_attribute_witness :
  ∃ w', (page_load ;; run_ops [OpToggle; OpSet (JStr "dark")]) busy_page
        = Normal () w' ∧
        localStorage w' !! "lang" = Some "zh" ∧
        documentElement w' !! "lang" = Some "zh-CN" ∧
        map el_id (elements w')
        = ["themeToggleButton"; "themeIcon"; "themeText"; "searchBox"].
Proof.
  destruct (code_keeps_to_its_key_and_attribute
              [OpToggle; OpSet (JStr "dark")] busy_page)
    as (w' & E & Hk & Ha & _ & _ & _ & _ & He).
  exists w'. split; [exact E|].
  split; [rewrite Hk; [vm_compute; reflexivity | unfold STORAGE_KEY; discriminate]|].
  split; [rewrite Ha; [vm_compute; reflexivity | unfold THEME_ATTRIBUTE; discriminate]|].
  rewrite He. reflexivity.
Defined.

Lemma store_kept_apply theme w x :
  store_kept w x → store_kept w (after_apply theme x).
Proof.
  intros [Hs Hl]. destruct (after_apply_env theme x) as (_ & Hs' & _).
  split; [congruence|].
  rewrite after_apply_localStorage, Hs. exact Hl.
Qed.

Lemma store_kept_fields w x y :
  store_kept w x → setItem_throws y = setItem_throws x →
  localStorage y = localStorage x → store_kept w y.
Proof. intros [Hs Hl] H1 H2. split; congruence. Qed.

Lemma store_kept_op w o x : store_kept w x → store_kept w (after_op o x).
Proof.
  intros Hx. destruct o as [t | | v | e]; cbn [after_op].
  - apply store_kept_apply, Hx.
  - destruct (after_toggle_as_update x) as (f & -> & _).
    eapply store_kept_fields; [apply store_kept_apply, Hx | reflexivity..].
  - destruct (strict_eq v (JStr "light") || strict_eq v (JStr "dark"));
      [| exact Hx].
    destruct v; try exact Hx.
    eapply store_kept_fields; [apply store_kept_apply, Hx | reflexivity..].
  - destruct (preference_stored x); [exact Hx|].
    eapply store_kept_fields; [apply store_kept_apply | reflexivity..].
    eapply store_kept_fields; [exact Hx | apply after_read_fields..].
Qed.

Lemma store_kept_load w :
  setItem_throws w = true →
  store_kept w
    (after_init (set_currentTheme (initial_theme w) (after_read (after_main w)))).
Proof.
  intros Hs.
  assert (H0 : store_kept w (after_main w)).
  { unfold after_main. destruct (String.eqb (initial_theme w) "light");
      split; auto. }
  assert (H1 : store_kept w (set_currentTheme (initial_theme w)
                               (after_read (after_main w)))).
  { eapply store_kept_fields; [exact H0 | cbn; apply after_read_fields..]. }
  pose proof (store_kept_apply (initial_theme w) w _ H1) as H2.
  destruct (after_init_fields (set_currentTheme (initial_theme w)
                                 (after_read (after_main w))))
    as (Hl & _ & _ & _ & Hs' & _).
  destruct H1 as [H1s H1l].
  split; [congruence|]. rewrite Hl. apply H2.
Qed.

(** X6: in a browser whose storage refuses writes, nothing is ever
    stored: the page load followed by any sequence of transitions returns
    normally and leaves the whole store exactly as it was. *)
Theorem refused_writes_leave_the_store (os : list Op) (w : World) :
  setItem_throws w = true →
  ∃ w', (page_load ;; run_ops os) w = Normal () w' ∧
        localStorage w' = localStorage w.
Proof.
  intros Hs.
  destruct (run_ops_invariant (store_kept w) (store_kept_op w) os _
              (store_kept_load w Hs))
    as (w' & E & _ & Hl).
  exists w'. split; [| exact Hl].
  rewrite (bind_eq _ _ _ _ _ (page_load_eq w)). exact E.
Qed.

Lemma refused_writes_leave_the_store_witness :
  setItem_throws (page_readonly (Some "dark") (Some true)) = true ∧
  ∃ w', (page_load ;; run_ops [OpToggle; OpSet (JStr "light")])
          (page_readonly (Some "dark") (Some true)) = Normal () w' ∧
        localStorage w' = localStorage (page_readonly (Some "dark") (Some true)).
Proof.
  split; [reflexivity|].
  apply (refused_writes_leave_the_store [OpToggle; OpSet (JStr "light")]
           (page_readonly (Some "dark") (Some true))).
  reflexivity.
Defined.

(** ** The toggle controls *)






(** ** The listener without a usable store *)

Lemma no_usable_store_not_stored w :
  no_usable_store w → preference_stored w = false.
Proof.
  intros [H | [_ H]]; [| exact H].
  unfold preference_stored, readable. rewrite H. reflexivity.
Qed.

Lemma no_usable_store_fields w x :
  no_usable_store w →
  getItem_throws x = getItem_throws w →
  setItem_throws x = setItem_throws w →
  localStorage x = localStorage w →
  no_usable_store x.
Proof.
  intros [H | [H1 H2]] Hg Hs Hl; [left; congruence|].
  right. split; [congruence|].
  unfold preference_stored, readable, persisted in *.
  rewrite Hg, Hl. exact H2.
Qed.

Lemma no_usable_store_apply theme w :
  no_usable_store w → no_usable_store (after_apply theme w).
Proof.
  intros H. destruct (after_apply_env theme w) as (Hg & Hs & _).
  destruct H as [H | [H1 H2]]; [left; congruence|].
  right. split; [congruence|].
  unfold preference_stored. rewrite after_apply_readable, H1.
  unfold preference_stored, readable in H2.
  destruct (getItem_throws w); [reflexivity | exact H2].
Qed.

Lemma no_usable_store_op o w : no_usable_store w → no_usable_store (after_op o w).
Proof.
  intros H. destruct o as [t | | v | e]; cbn [after_op].
  - apply no_usable_store_apply, H.
  - destruct (after_toggle_as_update w) as (f & -> & _).
    eapply no_usable_store_fields;
      [apply no_usable_store_apply, H | reflexivity..].
  - destruct (strict_eq v (JStr "light") || strict_eq v (JStr "dark"));
      [| exact H].
    destruct v; try exact H.
    eapply no_usable_store_fields;
      [apply no_usable_store_apply, H | reflexivity..].
  - destruct (preference_stored w); [exact H|].
    eapply no_usable_store_fields;
      [apply no_usable_store_apply | reflexivity..].
    eapply no_usable_store_fields; [exact H | apply after_read_fields..].
Qed.

(** X8: where the store cannot hold a preference (the read throws, or
    the write throws and nothing is stored), following the system never
    stops: whatever transitions came before, each system-theme-change
    notification sets the current theme to the new system theme, sets the
    marker for it and refreshes the controls. *)
Theorem listener_keeps_following_without_store
    (os : list Op) (e : bool) (w : World) :
  getItem_throws w = true ∨
  (setItem_throws w = true ∧ preference_stored w = false) →
  ∃ w1 w2, run_ops os w = Normal () w1 ∧
           handleChange e w1 = Normal () w2 ∧
           currentTheme w2 = theme_name (theme_of_matches e) ∧
           marker w2 = marker_of (theme_name (theme_of_matches e)) ∧
           controls_show w2.
Proof.
  intros H.
  destruct (run_ops_invariant no_usable_store no_usable_store_op os w H)
    as (w1 & E & H1).
  exists w1. eexists. split; [exact E|].
  split; [apply handleChange_eq|].
  rewrite (no_usable_store_not_stored w1 H1).
  rewrite after_update_currentTheme, after_apply_currentTheme.
  split; [reflexivity|]. split; [apply after_apply_marker|].
  apply after_update_shows.
Qed.

Lemma listener_keeps_following_without_store_witness :
  (getItem_throws (page_readonly None (Some true)) = true ∨
   (setItem_throws (page_readonly None (Some true)) = true ∧
    preference_stored (page_readonly None (Some true)) = false)) ∧
  ∃ w1 w2, run_ops [OpSystemChange false; OpToggle; OpSystemChange true]
             (page_readonly None (Some true)) = Normal () w1 ∧
           handleChange false w1 = Normal () w2 ∧
           currentTheme w2 = theme_name (theme_of_matches false) ∧
           marker w2 = marker_of (theme_name (theme_of_matches false)) ∧
           controls_show w2.
Proof.
  split; [right; split; reflexivity|].
  apply (listener_keeps_following_without_store
           [OpSystemChange false; OpToggle; OpSystemChange true] false
           (page_readonly None (Some true))).
  right; split; reflexivity.
Defined.

(** ** The constructor *)

(** X9: [new ThemeManager()] returns normally with the resolved theme
    as current theme (never the empty string), the marker set for it, the
    controls refreshed for it and the click listener registered; the
    system-theme listener is registered exactly when [window.matchMedia]
    exists; and, the write not throwing, the resolved theme is stored
    under the key. *)
Theorem constructor_establishes (w : World) :
  ∃ t w0 w', or_else getStoredTheme getSystemTheme w = Normal t w0 ∧
             constructor w = Normal () w' ∧
             currentTheme w' = t ∧
             t ≠ EmptyString ∧
             marker w' = marker_of t ∧
             controls_show w' ∧
             click_bound w' = true ∧
             watching w'
             = match matchMedia w with Some _ => true | None => watching w end ∧
             (setItem_throws w = false → persisted w' = Some t).
Proof.
  exists (initial_theme w), (after_read w). eexists.
  split; [apply resolve_eq|]. split; [apply constructor_eq|].
  set (x := set_currentTheme (initial_theme w) (after_read w)).
  destruct (after_init_fields x) as (_ & _ & _ & _ & _ & _ & _ & Hc & Hw & _).
  destruct (after_read_fields w) as (_ & _ & Hs & _ & _ & _ & _ & Hwa & _).
  split; [rewrite after_init_currentTheme; reflexivity|].
  split; [apply initial_theme_nonempty|].
  split; [rewrite after_init_marker; reflexivity|].
  split; [unfold after_init; cbn zeta; apply after_update_shows|].
  split; [exact Hc|]. split.
  - rewrite Hw. subst x. cbn. rewrite after_read_matchMedia, Hwa. reflexivity.
  - intros H. rewrite after_init_persisted; [reflexivity|].
    subst x. cbn. rewrite Hs. exact H.
Qed.

Lemma constructor_establishes_witness :
  setItem_throws (page None None) = false ∧
  ∃ w', constructor (page None None) = Normal () w' ∧
        persisted w' = Some (currentTheme w') ∧
        click_bound w' = true ∧
        watching w' = false.
Proof.
  split; [reflexivity|].
  destruct (constructor_establishes (page None None))
    as (t & w0 & w' & _ & E & Hc & _ & _ & _ & Hb & Hw & Hp).
  exists w'. split; [exact E|]. split; [rewrite Hc; apply Hp; reflexivity|].
  split; [exact Hb | exact Hw].
Defined.

(** ** Clicks *)





(** ** Setting twice, and reloading *)

Lemma after_update_env w :
  getItem_throws (after_update w) = getItem_throws w ∧
  setItem_throws (after_update w) = setItem_throws w ∧
  matchMedia (after_update w) = matchMedia w ∧
  showToast (after_update w) = showToast w ∧
  console (after_update w) = console w ∧
  watching (after_update w) = watching w ∧
  click_bound (after_update w) = click_bound w.
Proof. repeat split. Qed.

Lemma set_then_set (a b : string) (w : World) :
  setItem_throws w = false →
  after_update (after_apply b (after_update (after_apply a w)))
  = after_update (after_apply b w).
Proof.
  intros Hs.
  destruct (after_apply_env a w) as (Ag & As & Am & At & Aw & Ac).
  destruct (after_update_env (after_apply a w))
    as (Ug & Us & Um & Ut & Uc & Uw & Ub).
  set (x := after_update (after_apply a w)) in *.
  assert (Hx : setItem_throws x = false) by congruence.
  destruct (after_apply_env b x) as (Bg & Bs & Bm & Bt & Bw & Bc).
  destruct (after_apply_env b w) as (Cg & Cs & Cm & Ct & Cw & Cc).
  destruct (after_update_env (after_apply b x))
    as (Vg & Vs & Vm & Vt & Vc & Vw & Vb).
  destruct (after_update_env (after_apply b w))
    as (Wg & Ws & Wm & Wt & Wc & Ww & Wb).
  apply World_ext.
  - rewrite !after_update_localStorage, !after_apply_localStorage, Hx, Hs.
    subst x. rewrite after_update_localStorage, after_apply_localStorage, Hs.
    apply insert_insert_eq.
  - congruence.
  - congruence.
  - congruence.
  - rewrite !after_update_documentElement, !after_apply_documentElement.
    subst x. rewrite after_update_documentElement, after_apply_documentElement.
    destruct (String.eqb b "light"), (String.eqb a "light").
    + apply insert_insert_eq.
    + apply insert_delete_eq.
    + apply delete_insert_eq.
    + apply delete_delete_eq.
  - rewrite !after_update_elements, !after_apply_currentTheme,
      !after_apply_elements.
    subst x. rewrite after_update_elements, after_apply_elements.
    apply map_refresh_refresh.
  - congruence.
  - rewrite !after_update_toasts, !after_apply_toasts.
    subst x. rewrite after_update_toasts, after_apply_toasts. reflexivity.
  - rewrite Vc, Wc, !after_apply_console, Hx, Hs, Uc, after_apply_console, Hs.
    reflexivity.
  - congruence.
  - congruence.
  - rewrite !after_update_currentTheme, !after_apply_currentTheme. reflexivity.
Qed.

(** X11: the last [setTheme] wins and the earlier one leaves no trace:
    with a store that accepts writes, setting a theme and then a second
    one ends in exactly the state that setting the second one alone ends
    in; in particular setting the same theme twice is setting it once. *)
Theorem last_setTheme_wins (a b : Theme) (w : World) :
  setItem_throws w = false →
  (setTheme (JStr (theme_name a)) ;; setTheme (JStr (theme_name b))) w
  = setTheme (JStr (theme_name b)) w.
Proof.
  intros Hs.
  rewrite (bind_eq _ _ _ _ _ (setTheme_valid_eq a w)), !setTheme_valid_eq.
  f_equal. apply set_then_set. exact Hs.
Qed.

Lemma last_setTheme_wins_witness :
  setItem_throws (page None (Some false)) = false ∧
  (setTheme (JStr "dark") ;; setTheme (JStr "light")) (page None (Some false))
  = setTheme (JStr "light") (page None (Some false)).
Proof.
  split; [reflexivity|].
  apply (last_setTheme_wins dark light (page None (Some false))). reflexivity.
Defined.

Lemma acting_op_stores o w :
  setItem_throws w = false → acts o w = true →
  persisted (after_op o w) = Some (currentTheme (after_op o w)) ∧
  (currentTheme (after_op o w) = "light" ∨ currentTheme (after_op o w) = "dark").
Proof.
  intros Hs Ha.
  assert (Hu : ∀ (t : Theme) x, setItem_throws x = false →
            persisted (after_update (after_apply (theme_name t) x))
            = Some (currentTheme (after_update (after_apply (theme_name t) x))) ∧
            (currentTheme (after_update (after_apply (theme_name t) x)) = "light" ∨
             currentTheme (after_update (after_apply (theme_name t) x)) = "dark")).
  { intros t x Hx. rewrite after_update_currentTheme, after_apply_currentTheme.
    split; [| apply theme_name_cases].
    unfold persisted. rewrite after_update_localStorage.
    apply after_apply_persisted. exact Hx. }
  destruct o as [t | | v | e]; cbn [after_op acts] in *.
  - rewrite after_apply_currentTheme. split; [| apply theme_name_cases].
    apply after_apply_persisted. exact Hs.
  - destruct (after_toggle_as_update w) as (f & -> & _).
    destruct (String.eqb (currentTheme w) "light");
      [apply (Hu dark w Hs) | apply (Hu light w Hs)].
  - rewrite Ha. destruct (strict_eq_theme v Ha) as [t ->]. apply Hu, Hs.
  - destruct (preference_stored w); [discriminate|].
    apply Hu. rewrite <- Hs. apply after_read_fields.
Qed.

(** X12: a choice survives a reload.  With a store that accepts
    writes, after any transition that writes (applyTheme of a theme,
    toggleTheme, setTheme of a theme, a followed system change) the
    current theme is stored under the key; and on any page that finds this
    store and can read it, whatever the system prefers, the early script
    resolves to that theme and the page load ends with it as current
    theme. *)
Theorem choice_survives_reload (o : Op) (w : World) :
  setItem_throws w = false →
  acts o w = true →
  ∃ w', run_op o w = Normal () w' ∧
        persisted w' = Some (currentTheme w') ∧
        ∀ w2, localStorage w2 = localStorage w' →
              getItem_throws w2 = false →
              IIFE.theme w2 = Normal (currentTheme w') w2 ∧
              ∃ w3, page_load w2 = Normal () w3 ∧
                    currentTheme w3 = currentTheme w'.
Proof.
  intros Hs Ha. exists (after_op o w). split; [apply run_op_eq|].
  destruct (acting_op_stores o w Hs Ha) as [Hp Hv].
  split; [exact Hp|]. intros w2 Hl Hg.
  assert (Hi : initial_theme w2 = currentTheme (after_op o w)).
  { apply initial_theme_stored.
    - unfold readable, persisted. rewrite Hg, Hl. exact Hp.
    - destruct Hv as [-> | ->]; discriminate. }
  split; [rewrite IIFE_theme_eq, Hi; reflexivity|].
  eexists. split; [apply page_load_eq|].
  rewrite after_init_currentTheme. cbn. exact Hi.
Qed.

Lemma choice_survives_reload_witness :
  setItem_throws (page None (Some true)) = false ∧
  acts OpToggle (page None (Some true)) = true ∧
  ∃ w', run_op OpToggle (page None (Some true)) = Normal () w' ∧
        persisted w' = Some (currentTheme w') ∧
        ∀ w2, localStorage w2 = localStorage w' →
              getItem_throws w2 = false →
              IIFE.theme w2 = Normal (currentTheme w') w2 ∧
              ∃ w3, page_load w2 = Normal () w3 ∧
                    currentTheme w3 = currentTheme w'.
Proof.
  split; [reflexivity|]. split; [reflexivity|].
  apply (choice_survives_reload OpToggle (page None (Some true))); reflexivity.
Defined.

(** ** A working store *)

Lemma preference_stored_after_load w :
  getItem_throws w = false → setItem_throws w = false →
  preference_stored
    (after_init (set_currentTheme (initial_theme w) (after_read (after_main w))))
  = true.
Proof.
  intros Hg Hs.
  set (x := set_currentTheme (initial_theme w) (after_read (after_main w))).
  destruct (after_read_fields (after_main w)) as (_ & Rg & Rs & _).
  assert (Mg : getItem_throws (after_main w) = false).
  { unfold after_main. destruct (String.eqb _ _); exact Hg. }
  assert (Ms : setItem_throws (after_main w) = false).
  { unfold after_main. destruct (String.eqb _ _); exact Hs. }
  assert (Xg : getItem_throws x = false) by (subst x; cbn; congruence).
  assert (Xs : setItem_throws x = false) by (subst x; cbn; congruence).
  destruct (after_init_fields x) as (_ & _ & _ & Ig & _).
  unfold preference_stored, readable. rewrite Ig, Xg.
  rewrite (after_init_persisted x Xs). subst x. cbn.
  apply truthy_nonempty, initial_theme_nonempty.
Qed.

(** X13: with a store that can be read and written, the page load
    itself leaves a value under the key, and no transition removes it; so
    from the load on, whatever transitions come between, a
    system-theme-change notification changes nothing at all. *)
Theorem system_changes_ignored_after_load (os : list Op) (e : bool) (w : World) :
  getItem_throws w = false →
  setItem_throws w = false →
  ∃ w', (page_load ;; run_ops os) w = Normal () w' ∧
        preference_stored w' = true ∧
        handleChange e w' = Normal () w'.
Proof.
  intros Hg Hs.
  destruct (run_ops_keeps_pref os _ (preference_stored_after_load w Hg Hs))
    as (w' & E & Hp).
  exists w'. split; [rewrite (bind_eq _ _ _ _ _ (page_load_eq w)); exact E|].
  split; [exact Hp|]. rewrite handleChange_eq, Hp. reflexivity.
Qed.

Lemma system_changes_ignored_after_load_witness :
  getItem_throws (page None (Some false)) = false ∧
  setItem_throws (page None (Some false)) = false ∧
  ∃ w', (page_load ;; run_ops []) (page None (Some false)) = Normal () w' ∧
        preference_stored w' = true ∧
        handleChange true w' = Normal () w'.
Proof.
  split; [reflexivity|]. split; [reflexivity|].
  apply (system_changes_ignored_after_load [] true (page None (Some false)));
    reflexivity.
Defined.

Lemma quiet_apply theme w x : quiet w x → quiet w (after_apply theme x).
Proof.
  intros (Hg & Hs & Hc). destruct (after_apply_env theme x) as (Ag & As & _).
  unfold quiet. rewrite after_apply_console, Ag, As, Hs. auto.
Qed.

Lemma quiet_fields w x y :
  quiet w x → getItem_throws y = getItem_throws x →
  setItem_throws y = setItem_throws x → console y = console x → quiet w y.
Proof. intros (Hg & Hs & Hc) H1 H2 H3. unfold quiet. repeat split; congruence. Qed.

Lemma quiet_read w x : quiet w x → after_read x = x.
Proof. intros (Hg & _). unfold after_read. rewrite Hg. reflexivity. Qed.

Lemma quiet_op w o x : quiet w x → quiet w (after_op o x).
Proof.
  intros Hx. destruct o as [t | | v | e]; cbn [after_op].
  - apply quiet_apply, Hx.
  - destruct (after_toggle_as_update x) as (f & -> & _).
    eapply quiet_fields; [apply quiet_apply, Hx | reflexivity..].
  - destruct (strict_eq v (JStr "light") || strict_eq v (JStr "dark"));
      [| exact Hx].
    destruct v; try exact Hx.
    eapply quiet_fields; [apply quiet_apply, Hx | reflexivity..].
  - destruct (preference_stored x); [exact Hx|].
    rewrite (quiet_read w x Hx).
    eapply quiet_fields; [apply quiet_apply, Hx | reflexivity..].
Qed.

Lemma quiet_load w :
  getItem_throws w = false → setItem_throws w = false →
  quiet w
    (after_init (set_currentTheme (initial_theme w) (after_read (after_main w)))).
Proof.
  intros Hg Hs.
  assert (H0 : quiet w (after_main w)).
  { unfold after_main, quiet. destruct (String.eqb _ _); cbn; auto. }
  rewrite (quiet_read w _ H0).
  assert (H1 : quiet w (set_currentTheme (initial_theme w) (after_main w))).
  { eapply quiet_fields; [exact H0 | reflexivity..]. }
  pose proof (quiet_apply (initial_theme w) w _ H1) as H2.
  unfold after_init. cbn zeta.
  change (currentTheme (set_currentTheme (initial_theme w) (after_main w)))
    with (initial_theme w).
  eapply quiet_fields; [exact H2 | ..];
    destruct (matchMedia _); reflexivity.
Qed.

(** X14: the console is written only on a storage failure: with a
    store that can be read and written, the page load followed by any
    sequence of transitions logs nothing. *)
Theorem working_store_logs_nothing (os : list Op) (w : World) :
  getItem_throws w = false →
  setItem_throws w = false →
  ∃ w', (page_load ;; run_ops os) w = Normal () w' ∧ console w' = console w.
Proof.
  intros Hg Hs.
  destruct (run_ops_invariant (quiet w) (quiet_op w) os _ (quiet_load w Hg Hs))
    as (w' & E & _ & _ & Hc).
  exists w'. split; [| exact Hc].
  rewrite (bind_eq _ _ _ _ _ (page_load_eq w)). exact E.
Qed.

Lemma working_store_logs_nothing_witness :
  getItem_throws busy_page = false ∧
  setItem_throws busy_page = false ∧
  ∃ w', (page_load ;; run_ops [OpToggle; OpSystemChange true]) busy_page
        = Normal () w' ∧
        console w' = console busy_page.
Proof.
  split; [reflexivity|]. split; [reflexivity|].
  apply (working_store_logs_nothing [OpToggle; OpSystemChange true] busy_page);
    reflexivity.
Defined.
